(** * Lead-processing agent: routing engine and inbound workflow

    A shallow embedding of [lib/types.ts], [lib/lead-routing.ts], the parts of
    [lib/services.ts] that decide control flow, [workflows/inbound/steps.ts]
    and [workflows/inbound/index.ts], followed by the properties of the
    routing rules and of the category branching.

    Conventions.
    - A JavaScript [number] that counts leads is an integer [Z] (negative
      values included); an optional field is an [option]; [x || 0] and [!x]
      are written out ([orZero], [falsy]).
    - Names are those of the source. Where two object types of the source
      share a field name, the later one carries a prefix ([memberName],
      [recReason], [sumCategory], [enrIndustry]); the template kind
      [FOLLOW_UP] is [T_FOLLOW_UP], the category keeping the plain name.
    - A method of the [LeadRouter] class is a computation over the router
      object ([Run LeadRouter]); a workflow step is a computation over the
      [World] (the router singleton and the log of calls made so far).
    - Calls to language models, to the research agent and to Slack are
      collaborators: functions that may fail, gathered in [Collaborators]. *)

From Stdlib Require Import ZArith List String Bool Lia.
Import ListNotations.

Local Open Scope string_scope.
Local Open Scope list_scope.
Local Open Scope Z_scope.

(** String concatenation, as in a template literal. *)
Infix "+++" := String.append (at level 60, right associativity).

Set Implicit Arguments.

(** ** lib/types.ts *)

Inductive QualificationCategory :=
| HOT_LEAD | QUALIFIED | WARM_LEAD | FOLLOW_UP
| COLD_LEAD | UNQUALIFIED | SUPPORT | PARTNER.

Inductive LeadPriority := URGENT | HIGH | MEDIUM | LOW.

Inductive Industry :=
| TECHNOLOGY | FINANCE | HEALTHCARE | RETAIL | MANUFACTURING
| EDUCATION | GOVERNMENT | NONPROFIT | OTHER.

Inductive CompanySize := ENTERPRISE | MID_MARKET | SMB | STARTUP | UNKNOWN.

Inductive EmailTemplateType :=
| HOT_LEAD_RESPONSE | QUALIFIED_RESPONSE | T_FOLLOW_UP | NURTURE
| SUPPORT_REDIRECT | PARTNER_OUTREACH | COLD_OUTREACH.

Scheme Equality for QualificationCategory.
Scheme Equality for LeadPriority.
Scheme Equality for Industry.
Scheme Equality for CompanySize.
Scheme Equality for EmailTemplateType.

Record FormSchema := {
  email : string;
  name : string;
  phone : option string;
  company : option string;
  message : string
}.

Record QualificationSchema := {
  category : QualificationCategory;
  priority : LeadPriority;
  leadScore : Z;
  reason : string;
  industry : option Industry;
  companySize : option CompanySize;
  estimatedDealValue : option string;
  nextSteps : list string;
  assignedTo : option string
}.

Record SocialProfiles := {
  linkedin : option string;
  twitter : option string;
  facebook : option string
}.

Record LeadEnrichmentSchema := {
  companyName : option string;
  companyWebsite : option string;
  companyDescription : option string;
  enrCompanySize : option CompanySize;
  enrIndustry : option Industry;
  foundedYear : option string;
  headquarters : option string;
  revenue : option string;
  fundingInfo : option string;
  techStack : option (list string);
  socialProfiles : option SocialProfiles;
  recentNews : option (list string);
  competitors : option (list string)
}.

(** The text a template literal prints for an enum value. *)
Definition industryText (i : Industry) : string :=
  match i with
  | TECHNOLOGY => "TECHNOLOGY" | FINANCE => "FINANCE"
  | HEALTHCARE => "HEALTHCARE" | RETAIL => "RETAIL"
  | MANUFACTURING => "MANUFACTURING" | EDUCATION => "EDUCATION"
  | GOVERNMENT => "GOVERNMENT" | NONPROFIT => "NONPROFIT" | OTHER => "OTHER"
  end.

(** ** JavaScript idioms used by the router *)

(** [!n] for an optional number: true for [undefined] and for [0]. *)
Definition falsy (n : option Z) : bool :=
  match n with
  | None => true
  | Some v => v =? 0
  end.

(** [n || 0] for an optional number. *)
Definition orZero (n : option Z) : Z :=
  match n with
  | None => 0
  | Some v => v
  end.

(** [x < m] where [m] may be [undefined]: a comparison with [undefined] is
    false. *)
Definition ltNumber (x : Z) (m : option Z) : bool :=
  match m with
  | None => false
  | Some v => x <? v
  end.

(** [xs?.includes(i)], coerced to a boolean by the caller. *)
Definition includesIndustry (xs : option (list Industry)) (i : Industry) : bool :=
  match xs with
  | None => false
  | Some l => existsb (Industry_beq i) l
  end.

(** ** Computations over an object: state, and exceptions that propagate *)

Inductive Outcome (A : Type) :=
| Returned (a : A)
| Threw (what : string).

Arguments Threw {A} what.

Definition Run (S A : Type) : Type := S -> Outcome A * S.

Definition ret {S A} (a : A) : Run S A := fun s => (Returned a, s).

Definition bind {S A B} (c : Run S A) (k : A -> Run S B) : Run S B :=
  fun s =>
    match c s with
    | (Returned a, s') => k a s'
    | (Threw e, s') => (Threw e, s')
    end.

Definition throw {S A} (e : string) : Run S A := fun s => (Threw e, s).

Definition gets {S A} (f : S -> A) : Run S A := fun s => (Returned (f s), s).

Definition modify {S} (f : S -> S) : Run S unit := fun s => (Returned tt, f s).

(** [try { c } catch (error) { h }]. *)
Definition tryCatch {S A} (c : Run S A) (h : string -> Run S A) : Run S A :=
  fun s =>
    match c s with
    | (Returned a, s') => (Returned a, s')
    | (Threw e, s') => h e s'
    end.

Declare Scope run_scope.
Delimit Scope run_scope with run.
Notation "x <- c ;; k" := (bind c (fun x => k))
  (at level 61, c at next level, right associativity) : run_scope.
Notation "c ;;; k" := (bind c (fun _ => k))
  (at level 61, right associativity) : run_scope.
Local Open Scope run_scope.

(** ** lib/lead-routing.ts *)

Inductive Role := SDR | AE | ENTERPRISE_AE | TEAM_LEAD.

Scheme Equality for Role.

Definition roleText (r : Role) : string :=
  match r with
  | SDR => "SDR" | AE => "AE"
  | ENTERPRISE_AE => "ENTERPRISE_AE" | TEAM_LEAD => "TEAM_LEAD"
  end.

Record SalesTeamMember := {
  id : string;
  memberName : string;
  memberEmail : string;
  role : Role;
  territories : option (list string);
  industries : option (list Industry);
  companySizes : option (list CompanySize);
  maxActiveLeads : option Z;
  currentLeadCount : option Z
}.

(** The router object: its one private field. *)
Record LeadRouter := { salesTeam : list SalesTeamMember }.

Record Recommendation := {
  recAssignedTo : option SalesTeamMember;
  recReason : string
}.

Module Router.

(** The callback of [team.reduce] in [findLeastBusyRep]. *)
Definition lessBusy (prev current : SalesTeamMember) : SalesTeamMember :=
  let prevCount := orZero (currentLeadCount prev) in
  let currentCount := orZero (currentLeadCount current) in
  if prevCount <? currentCount then prev else current.

(** [team.reduce(f)] without an initial value, on a non-empty array. *)
Definition reduce1 {A} (f : A -> A -> A) (first : A) (rest : list A) : A :=
  fold_left f rest first.

(** [findLeastBusyRep(team = this.salesTeam)]: [None] stands for the
    omitted argument. *)
Definition findLeastBusyRep (team : option (list SalesTeamMember))
  : Run LeadRouter (option SalesTeamMember) :=
  team <- match team with
          | Some t => ret t
          | None => gets salesTeam
          end ;;
  match team with
  | [] => ret None
  | first :: rest => ret (Some (reduce1 lessBusy first rest))
  end.

Definition hasIndustryMatch (qualification : QualificationSchema)
  (ae : SalesTeamMember) : bool :=
  match industry qualification with
  | None => false
  | Some i => includesIndustry (industries ae) i
  end.

Definition hasCapacity (ae : SalesTeamMember) : bool :=
  falsy (maxActiveLeads ae)
  || ltNumber (orZero (currentLeadCount ae)) (maxActiveLeads ae).

Definition isEnterpriseAE (member : SalesTeamMember) : bool :=
  Role_beq (role member) ENTERPRISE_AE.

Definition findBestEnterpriseAE (qualification : QualificationSchema)
  : Run LeadRouter (option SalesTeamMember) :=
  team <- gets salesTeam ;;
  let enterpriseAEs := filter isEnterpriseAE team in
  if (Z.of_nat (List.length enterpriseAEs) =? 0) then ret None
  else
    let found :=
      find (fun ae => hasIndustryMatch qualification ae && hasCapacity ae)
           enterpriseAEs in
    match found with
    | Some ae => ret (Some ae)
    | None => findLeastBusyRep (Some enterpriseAEs)
    end.

Definition findIndustryExpert (i : Industry)
  : Run LeadRouter (option SalesTeamMember) :=
  team <- gets salesTeam ;;
  let experts := filter (fun member => includesIndustry (industries member) i) team in
  if (Z.of_nat (List.length experts) =? 0) then ret None
  else findLeastBusyRep (Some experts).

Definition isHotOrUrgent (qualification : QualificationSchema) : bool :=
  QualificationCategory_beq (category qualification) HOT_LEAD
  || LeadPriority_beq (priority qualification) URGENT.

Definition isEnterpriseSize (qualification : QualificationSchema) : bool :=
  match companySize qualification with
  | Some ENTERPRISE => true
  | _ => false
  end.

Definition routeLead (qualification : QualificationSchema)
  : Run LeadRouter (option SalesTeamMember) :=
  team <- gets salesTeam ;;
  if (Z.of_nat (List.length team) =? 0) then ret None
  else
    enterpriseAE <- (if isHotOrUrgent qualification
                     then findBestEnterpriseAE qualification
                     else ret None) ;;
    match enterpriseAE with
    | Some ae => ret (Some ae)
    | None =>
        if isEnterpriseSize qualification
        then findBestEnterpriseAE qualification
        else
          industryExpert <- match industry qualification with
                            | Some i => findIndustryExpert i
                            | None => ret None
                            end ;;
          match industryExpert with
          | Some e => ret (Some e)
          | None => findLeastBusyRep None
          end
    end.

Definition getRoutingRecommendation (qualification : QualificationSchema)
  : Run LeadRouter Recommendation :=
  assigned <- routeLead qualification ;;
  match assigned with
  | None =>
      ret {| recAssignedTo := None;
             recReason := "No sales team configured. Please assign manually." |}
  | Some w =>
      let reason0 :=
        "Assigned to " +++ memberName w +++ " (" +++ roleText (role w) +++ ")" in
      let reason1 :=
        if QualificationCategory_beq (category qualification) HOT_LEAD
        then reason0 +++ " - Hot lead requires enterprise AE"
        else if isEnterpriseSize qualification
        then reason0 +++ " - Enterprise account"
        else if hasIndustryMatch qualification w
        then reason0 +++ " - Industry expertise: "
               +++ match industry qualification with
                  | Some i => industryText i
                  | None => ""
                  end
        else reason0 +++ " - Best available capacity" in
      ret {| recAssignedTo := Some w; recReason := reason1 |}
  end.

End Router.

Definition mkMember (i n e : string) (r : Role) (inds : list Industry)
  (sizes : list CompanySize) (cap cur : Z) : SalesTeamMember :=
  {| id := i; memberName := n; memberEmail := e; role := r;
     territories := None; industries := Some inds; companySizes := Some sizes;
     maxActiveLeads := Some cap; currentLeadCount := Some cur |}.

Definition defaultSalesTeam : list SalesTeamMember :=
  [ mkMember "ae-1" "Sarah Chen" "sarah.chen@company.com" ENTERPRISE_AE
      [TECHNOLOGY; FINANCE] [ENTERPRISE; MID_MARKET] 15 8;
    mkMember "ae-2" "Michael Rodriguez" "michael.rodriguez@company.com" ENTERPRISE_AE
      [HEALTHCARE; FINANCE] [ENTERPRISE; MID_MARKET] 15 12;
    mkMember "ae-3" "David Kim" "david.kim@company.com" AE
      [TECHNOLOGY; RETAIL] [MID_MARKET; SMB] 25 18;
    mkMember "sdr-1" "Emily Johnson" "emily.johnson@company.com" SDR
      [TECHNOLOGY; EDUCATION] [SMB; STARTUP] 40 25;
    mkMember "sdr-2" "James Wilson" "james.wilson@company.com" SDR
      [RETAIL; MANUFACTURING] [SMB; STARTUP] 40 30 ].

(** [new LeadRouter(defaultSalesTeam)]. *)
Definition leadRouter : LeadRouter := {| salesTeam := defaultSalesTeam |}.

(** ** The world a workflow run acts on *)

(** What a run did, in program order: one entry per call that leaves the
    workflow function or consults the router. *)
Inductive Call :=
| CallResearchAgent
| CallEnrichLead
| CallGenerateQualification
| CallGetRoutingRecommendation (qualification : QualificationSchema)
| CallWriteEmail (templateType : EmailTemplateType)
| CallGenerateFollowUpSequence
| CallStepHumanFeedback
| CallSendSlackMessage.

Record World := {
  router : LeadRouter;
  calls : list Call
}.

(** The external services. [None] is a call that rejects (network error,
    schema mismatch); the two booleans say whether the environment variables
    of the Slack application are set. *)
Record Collaborators := {
  researchAgentGenerate : FormSchema -> option string;
  generateEnrichment : FormSchema -> string -> option LeadEnrichmentSchema;
  generateQualification :
    FormSchema -> string -> LeadEnrichmentSchema -> option QualificationSchema;
  generateEmailText :
    FormSchema -> string -> QualificationSchema -> LeadEnrichmentSchema ->
    EmailTemplateType -> option string;
  generateFollowUpEmails :
    FormSchema -> QualificationSchema -> LeadEnrichmentSchema -> list string ->
    option (list string);
  SLACK_BOT_TOKEN : bool;
  SLACK_SIGNING_SECRET : bool;
  sendSlackMessageWithButtons :
    FormSchema -> string -> string -> QualificationSchema ->
    LeadEnrichmentSchema -> option string
}.

Definition record (c : Call) : Run World unit :=
  modify (fun w => {| router := router w; calls := calls w ++ [c] |}).

(** A call to a collaborator: it is recorded, then it resolves or rejects. *)
Definition await {A} (c : Call) (answer : option A) : Run World A :=
  record c ;;;
  match answer with
  | Some a => ret a
  | None => throw "rejected"
  end.

(** A method call on the router singleton. *)
Definition onRouter {A} (c : Run LeadRouter A) : Run World A :=
  fun w =>
    match c (router w) with
    | (o, r') => (o, {| router := r'; calls := calls w |})
    end.

(** ** lib/services.ts *)

Definition setAssignedTo (object : QualificationSchema) (a : option string)
  : QualificationSchema :=
  {| category := category object;
     priority := priority object;
     leadScore := leadScore object;
     reason := reason object;
     industry := industry object;
     companySize := companySize object;
     estimatedDealValue := estimatedDealValue object;
     nextSteps := nextSteps object;
     assignedTo := a |}.

Definition enrichLead (ext : Collaborators) (lead : FormSchema) (research : string)
  : Run World LeadEnrichmentSchema :=
  await CallEnrichLead (generateEnrichment ext lead research).

(** The router module is part of the repository, so its dynamic import
    resolves; the handler of the [try] is kept for a call that throws. *)
Definition qualify (ext : Collaborators) (lead : FormSchema) (research : string)
  (enrichment : LeadEnrichmentSchema) : Run World QualificationSchema :=
  object <- await CallGenerateQualification
              (generateQualification ext lead research enrichment) ;;
  tryCatch
    (record (CallGetRoutingRecommendation object) ;;;
     routing <- onRouter (Router.getRoutingRecommendation object) ;;
     match recAssignedTo routing with
     | Some w =>
         ret (setAssignedTo object
                (Some (memberName w +++ " (" +++ memberEmail w +++ ") - "
                         +++ recReason routing)))
     | None => ret object
     end)
    (fun _ => ret object).

Definition getEmailTemplateType (qualification : QualificationSchema)
  : EmailTemplateType :=
  match category qualification with
  | HOT_LEAD => HOT_LEAD_RESPONSE
  | QUALIFIED | WARM_LEAD => QUALIFIED_RESPONSE
  | FOLLOW_UP => T_FOLLOW_UP
  | SUPPORT => SUPPORT_REDIRECT
  | PARTNER => PARTNER_OUTREACH
  | _ => NURTURE
  end.

Definition writeEmail (ext : Collaborators) (lead : FormSchema) (research : string)
  (qualification : QualificationSchema) (enrichment : LeadEnrichmentSchema)
  : Run World string :=
  let templateType := getEmailTemplateType qualification in
  await (CallWriteEmail templateType)
    (generateEmailText ext lead research qualification enrichment templateType).

Definition generateFollowUpSequence (ext : Collaborators) (lead : FormSchema)
  (qualification : QualificationSchema) (enrichment : LeadEnrichmentSchema)
  (previousEmails : list string) : Run World (list string) :=
  await CallGenerateFollowUpSequence
    (generateFollowUpEmails ext lead qualification enrichment previousEmails).

Definition humanFeedback (ext : Collaborators) (lead : FormSchema)
  (research emailText : string) (qualification : QualificationSchema)
  (enrichment : LeadEnrichmentSchema) : Run World string :=
  await CallSendSlackMessage
    (sendSlackMessageWithButtons ext lead research emailText qualification enrichment).

(** ** workflows/inbound/steps.ts *)

Definition stepResearch (ext : Collaborators) (data : FormSchema) : Run World string :=
  await CallResearchAgent (researchAgentGenerate ext data).

Definition stepEnrichment (ext : Collaborators) (data : FormSchema)
  (research : string) : Run World LeadEnrichmentSchema :=
  enrichLead ext data research.

Definition stepQualify (ext : Collaborators) (data : FormSchema) (research : string)
  (enrichment : LeadEnrichmentSchema) : Run World QualificationSchema :=
  qualify ext data research enrichment.

Definition stepWriteEmail (ext : Collaborators) (data : FormSchema)
  (research : string) (qualification : QualificationSchema)
  (enrichment : LeadEnrichmentSchema) : Run World string :=
  writeEmail ext data research qualification enrichment.

Definition stepGenerateFollowUpSequence (ext : Collaborators) (data : FormSchema)
  (qualification : QualificationSchema) (enrichment : LeadEnrichmentSchema)
  (initialEmail : string) : Run World (list string) :=
  generateFollowUpSequence ext data qualification enrichment [initialEmail].

(** Returns the Slack message handle, or nothing when Slack is not
    configured. *)
Definition stepHumanFeedback (ext : Collaborators) (data : FormSchema)
  (research emailText : string) (qualification : QualificationSchema)
  (enrichment : LeadEnrichmentSchema) : Run World (option string) :=
  record CallStepHumanFeedback ;;;
  if negb (SLACK_BOT_TOKEN ext) || negb (SLACK_SIGNING_SECRET ext)
  then ret None
  else
    slackMessage <- humanFeedback ext data research emailText qualification enrichment ;;
    ret (Some slackMessage).

(** ** workflows/inbound/index.ts *)

Record Summary := {
  leadName : string;
  leadEmail : string;
  sumCategory : QualificationCategory;
  sumPriority : LeadPriority;
  sumLeadScore : Z;
  estimatedValue : option string;
  sumNextSteps : list string;
  sumAssignedTo : option string
}.

Definition summaryOf (data : FormSchema) (qualification : QualificationSchema)
  : Summary :=
  {| leadName := name data;
     leadEmail := email data;
     sumCategory := category qualification;
     sumPriority := priority qualification;
     sumLeadScore := leadScore qualification;
     estimatedValue := estimatedDealValue qualification;
     sumNextSteps := nextSteps qualification;
     sumAssignedTo := assignedTo qualification |}.

Definition workflowInbound (ext : Collaborators) (data : FormSchema)
  : Run World Summary :=
  research <- stepResearch ext data ;;
  enrichment <- stepEnrichment ext data research ;;
  qualification <- stepQualify ext data research enrichment ;;
  match category qualification with
  | HOT_LEAD | QUALIFIED | WARM_LEAD | FOLLOW_UP | PARTNER =>
      emailText <- stepWriteEmail ext data research qualification enrichment ;;
      _followUpSequence <-
        stepGenerateFollowUpSequence ext data qualification enrichment emailText ;;
      stepHumanFeedback ext data research emailText qualification enrichment ;;;
      ret tt
  | SUPPORT =>
      emailText <- stepWriteEmail ext data research qualification enrichment ;;
      stepHumanFeedback ext data research emailText qualification enrichment ;;;
      ret tt
  | UNQUALIFIED =>
      _email <- stepWriteEmail ext data research qualification enrichment ;;
      ret tt
  | COLD_LEAD =>
      _email <- stepWriteEmail ext data research qualification enrichment ;;
      ret tt
  end ;;;
  ret (summaryOf data qualification).

(** ** workflows/outbound/index.ts and workflows/outbound/steps.ts *)

Module Outbound.

Inductive CampaignType :=
| cold_outreach | warm_intro | event_follow_up | content_engagement.

Record OutboundProspect := {
  name : string;
  email : string;
  company : string;
  title : option string;
  linkedinUrl : option string;
  companyWebsite : option string;
  targetPersona : option string;
  campaignType : CampaignType
}.

Inductive IcpFit := excellent | good | fair | poor.

Record ProspectQualification := {
  shouldReachOut : bool;
  score : Z;
  reason : string;
  icpFit : IcpFit;
  estimatedDealValue : option string;
  bestApproach : string;
  personalizationAngles : list string
}.

Module Channel.
Inductive t := email | linkedin | phone | video.
End Channel.

Record TouchPoint := {
  day : Z;
  channel : Channel.t;
  subject : option string;
  content : string;
  objective : string
}.

Record MultiTouchSequence := {
  touchPoints : list TouchPoint;
  totalDuration : Z;
  expectedResponseRate : string
}.

(** What an outbound run did, in program order. *)
Inductive Call :=
| CallResearchProspect
| CallQualifyProspect
| CallGenerateOutboundEmail
| CallGenerateMultiTouchSequence
| CallReviewOutbound
| CallSendSlackMessage.

(** The external services of the outbound steps; [None] is a call that
    rejects. *)
Record Services := {
  researchAgentGenerate : OutboundProspect -> option string;
  generateProspectQualification :
    OutboundProspect -> string -> option ProspectQualification;
  generateEmailText :
    OutboundProspect -> string -> ProspectQualification -> option string;
  generateSequence :
    OutboundProspect -> string -> ProspectQualification -> string ->
    option MultiTouchSequence;
  SLACK_BOT_TOKEN : bool;
  SLACK_SIGNING_SECRET : bool;
  sendSlackMessageWithButtons :
    OutboundProspect -> string -> ProspectQualification ->
    MultiTouchSequence -> option string
}.

Definition note (c : Call) : Run (list Call) unit :=
  modify (fun cs => cs ++ [c]).

Definition awaitCall {A} (c : Call) (answer : option A) : Run (list Call) A :=
  note c ;;;
  match answer with
  | Some a => ret a
  | None => throw "rejected"
  end.

Definition stepResearchProspect (ext : Services) (prospect : OutboundProspect)
  : Run (list Call) string :=
  awaitCall CallResearchProspect (researchAgentGenerate ext prospect).

Definition stepQualifyProspect (ext : Services) (prospect : OutboundProspect)
  (research : string) : Run (list Call) ProspectQualification :=
  awaitCall CallQualifyProspect
    (generateProspectQualification ext prospect research).

Definition stepGenerateOutboundEmail (ext : Services)
  (prospect : OutboundProspect) (research : string)
  (qualification : ProspectQualification) : Run (list Call) string :=
  awaitCall CallGenerateOutboundEmail
    (generateEmailText ext prospect research qualification).

Definition stepGenerateMultiTouchSequence (ext : Services)
  (prospect : OutboundProspect) (research : string)
  (qualification : ProspectQualification) (initialEmail : string)
  : Run (list Call) MultiTouchSequence :=
  awaitCall CallGenerateMultiTouchSequence
    (generateSequence ext prospect research qualification initialEmail).

(** Returns the Slack message handle, or nothing when Slack is not
    configured. *)
Definition stepReviewOutbound (ext : Services) (prospect : OutboundProspect)
  (research : string) (qualification : ProspectQualification)
  (sequence : MultiTouchSequence) : Run (list Call) (option string) :=
  note CallReviewOutbound ;;;
  if negb (SLACK_BOT_TOKEN ext) || negb (SLACK_SIGNING_SECRET ext)
  then ret None
  else
    handle <- awaitCall CallSendSlackMessage
                (sendSlackMessageWithButtons ext prospect research
                   qualification sequence) ;;
    ret (Some handle).

(** The two shapes of the object the workflow returns: [qualified: true]
    and [qualified: false]. *)
Inductive Result :=
| Qualified (prospectName company : string) (score : Z)
    (sequenceLength : Z) (estimatedValue : option string)
| NotQualified (prospectName company : string) (reason : string).

Definition workflowOutbound (ext : Services) (prospect : OutboundProspect)
  : Run (list Call) Result :=
  research <- stepResearchProspect ext prospect ;;
  qualification <- stepQualifyProspect ext prospect research ;;
  if shouldReachOut qualification
  then
    initialEmail <-
      stepGenerateOutboundEmail ext prospect research qualification ;;
    sequence <-
      stepGenerateMultiTouchSequence ext prospect research qualification
        initialEmail ;;
    stepReviewOutbound ext prospect research qualification sequence ;;;
    ret (Qualified (name prospect) (company prospect) (score qualification)
           (Z.of_nat (List.length (touchPoints sequence)))
           (estimatedDealValue qualification))
  else
    ret (NotQualified (name prospect) (company prospect) (reason qualification)).

End Outbound.

(** ** app/api/outbound/route.ts *)

Module Api.

(** The JSON bodies of the three answers. *)
Inductive ResponseBody :=
| InvalidBody (error details : string)
| StartedBody (message prospectName company : string)
| FailedBody (error : string).

Record Response := {
  body : ResponseBody;
  status : Z
}.

(** What the handler runs on: [outboundProspectSchema.safeParse], which
    gives the parsed prospect or the message of the validation error, and
    [start], which succeeds or rejects. *)
Record Platform (Body : Type) := {
  safeParse : Body -> string + Outbound.OutboundProspect;
  start : Outbound.OutboundProspect -> bool
}.

(** [POST(request)]: [requestJson] is the result of [request.json()],
    [None] when it rejects. The state is the list of workflows started. *)
Definition POST {Body} (platform : Platform Body) (requestJson : option Body)
  : Run (list Outbound.OutboundProspect) Response :=
  tryCatch
    (requestBody <- match requestJson with
                    | Some b => ret b
                    | None => throw "Unexpected end of JSON input"
                    end ;;
     match safeParse platform requestBody with
     | inl details =>
         ret {| body := InvalidBody "Invalid request body" details;
                status := 400 |}
     | inr data =>
         (if start platform data
          then modify (fun started => started ++ [data])
          else throw "start rejected") ;;;
         ret {| body := StartedBody "Outbound workflow started successfully"
                          (Outbound.name data) (Outbound.company data);
                status := 200 |}
     end)
    (fun _ =>
       ret {| body := FailedBody "Failed to start outbound workflow";
              status := 500 |}).

End Api.

(** * Vocabulary of the properties *)

Import Router.

(** ** What the router methods return

    Each method returns a value that depends on the team alone; the values
    are named here so that the routing rules can be reasoned about on
    lists. *)

Definition load (m : SalesTeamMember) : Z := orZero (currentLeadCount m).

Definition leastBusy (team : list SalesTeamMember) : option SalesTeamMember :=
  match team with
  | [] => None
  | first :: rest => Some (reduce1 lessBusy first rest)
  end.

Definition enterpriseAEs (team : list SalesTeamMember) : list SalesTeamMember :=
  filter isEnterpriseAE team.

Definition bestEnterpriseAE (q : QualificationSchema)
  (team : list SalesTeamMember) : option SalesTeamMember :=
  match find (fun ae => hasIndustryMatch q ae && hasCapacity ae)
             (enterpriseAEs team) with
  | Some ae => Some ae
  | None => leastBusy (enterpriseAEs team)
  end.

Definition industryExpert (i : Industry) (team : list SalesTeamMember)
  : option SalesTeamMember :=
  leastBusy (filter (fun member => includesIndustry (industries member) i) team).

Definition lowerRules (q : QualificationSchema) (team : list SalesTeamMember)
  : option SalesTeamMember :=
  match match industry q with
        | Some i => industryExpert i team
        | None => None
        end with
  | Some e => Some e
  | None => leastBusy team
  end.

Definition routed (q : QualificationSchema) (team : list SalesTeamMember)
  : option SalesTeamMember :=
  match team with
  | [] => None
  | _ :: _ =>
      match (if isHotOrUrgent q then bestEnterpriseAE q team else None) with
      | Some ae => Some ae
      | None =>
          if isEnterpriseSize q then bestEnterpriseAE q team
          else lowerRules q team
      end
  end.

(** ** Positions of minimum load *)

(** [w] stands in [team] at the last position that carries the minimum
    load. *)
Definition LastMinimum (team : list SalesTeamMember) (w : SalesTeamMember) : Prop :=
  exists before after,
    team = before ++ w :: after
    /\ (forall m, In m before -> load w <= load m)
    /\ (forall m, In m after -> load w < load m).

(** [w] stands in [team] at the first position that carries the minimum
    load: "lowest current load, ties broken by pool iteration order,
    first encountered wins". *)
Definition FirstMinimum (team : list SalesTeamMember) (w : SalesTeamMember) : Prop :=
  exists before after,
    team = before ++ w :: after
    /\ (forall m, In m before -> load w < load m)
    /\ (forall m, In m after -> load w <= load m).

(** The candidate set [findLeastBusyRep] works on: the argument, or the whole
    team when the argument is omitted. *)
Definition candidatesOf (given : option (list SalesTeamMember)) (r : LeadRouter)
  : list SalesTeamMember :=
  match given with
  | Some t => t
  | None => salesTeam r
  end.

(** ** The rule behind a routing decision *)

(** The four [return] sites of [routeLead] that can yield a worker. *)
Inductive Rule :=
| HotOrUrgentRule
| EnterpriseSizeRule
| IndustryExpertRule
| LeastBusyRule.

Definition label (rule : Rule) (c : Run LeadRouter (option SalesTeamMember))
  : Run LeadRouter (option (Rule * SalesTeamMember)) :=
  w <- c ;; ret (option_map (pair rule) w).

(** [routeLead], each return labelled with the rule it belongs to. *)
Definition routeLeadLabelled (qualification : QualificationSchema)
  : Run LeadRouter (option (Rule * SalesTeamMember)) :=
  team <- gets salesTeam ;;
  if (Z.of_nat (List.length team) =? 0) then ret None
  else
    enterpriseAE <- (if isHotOrUrgent qualification
                     then findBestEnterpriseAE qualification
                     else ret None) ;;
    match enterpriseAE with
    | Some ae => ret (Some (HotOrUrgentRule, ae))
    | None =>
        if isEnterpriseSize qualification
        then label EnterpriseSizeRule (findBestEnterpriseAE qualification)
        else
          industryExpert <- match industry qualification with
                            | Some i => findIndustryExpert i
                            | None => ret None
                            end ;;
          match industryExpert with
          | Some e => ret (Some (IndustryExpertRule, e))
          | None => label LeastBusyRule (findLeastBusyRep None)
          end
    end.

(** The explanation [getRoutingRecommendation] has for each rule. *)
Definition explanation (rule : Rule) (qualification : QualificationSchema)
  : string :=
  match rule with
  | HotOrUrgentRule => " - Hot lead requires enterprise AE"
  | EnterpriseSizeRule => " - Enterprise account"
  | IndustryExpertRule =>
      " - Industry expertise: "
        +++ match industry qualification with
            | Some i => industryText i
            | None => ""
            end
  | LeastBusyRule => " - Best available capacity"
  end.

Definition forget (o : Outcome (option (Rule * SalesTeamMember)))
  : Outcome (option SalesTeamMember) :=
  match o with
  | Returned v => Returned (option_map snd v)
  | Threw e => Threw e
  end.

(** ** Templates the selector can return *)

(** A classification of a given category; the other fields are arbitrary. *)
Definition classified (c : QualificationCategory) : QualificationSchema :=
  {| category := c; priority := MEDIUM; leadScore := 50; reason := "";
     industry := None; companySize := None; estimatedDealValue := None;
     nextSteps := []; assignedTo := None |}.

Definition selectable : list EmailTemplateType :=
  [HOT_LEAD_RESPONSE; QUALIFIED_RESPONSE; T_FOLLOW_UP; NURTURE;
   SUPPORT_REDIRECT; PARTNER_OUTREACH].

(** ** Runs of the inbound workflow *)

(** The world after further calls. *)
Definition logged (w : World) (cs : list Call) : World :=
  {| router := router w; calls := calls w ++ cs |}.

(** The classification [qualify] returns, given what the language model
    answered: the answer, with [assignedTo] overwritten when the router
    recommends a worker. *)
Definition routedQualification (object : QualificationSchema) (r : LeadRouter)
  : QualificationSchema :=
  match fst (getRoutingRecommendation object r) with
  | Returned routing =>
      match recAssignedTo routing with
      | Some m =>
          setAssignedTo object
            (Some (memberName m +++ " (" +++ memberEmail m +++ ") - "
                     +++ recReason routing))
      | None => object
      end
  | Threw _ => object
  end.

(** ** Teams, leads and collaborators used as instances *)

Definition noTeam : LeadRouter := {| salesTeam := [] |}.

Definition teamWithoutEnterpriseAE : LeadRouter :=
  {| salesTeam := skipn 2 defaultSalesTeam |}.

Definition saturatedAE : SalesTeamMember :=
  mkMember "ae-0" "Priya Nair" "priya.nair@company.com" ENTERPRISE_AE
    [TECHNOLOGY] [ENTERPRISE] 0 50.

Definition teamWithSaturatedAE : LeadRouter :=
  {| salesTeam := skipn 2 defaultSalesTeam ++ saturatedAE :: firstn 2 defaultSalesTeam |}.

Definition sarahChen : SalesTeamMember :=
  mkMember "ae-1" "Sarah Chen" "sarah.chen@company.com" ENTERPRISE_AE
    [TECHNOLOGY; FINANCE] [ENTERPRISE; MID_MARKET] 15 8.

Definition davidKim : SalesTeamMember :=
  mkMember "ae-3" "David Kim" "david.kim@company.com" AE
    [TECHNOLOGY; RETAIL] [MID_MARKET; SMB] 25 18.

Definition repA : SalesTeamMember :=
  mkMember "sdr-a" "Ana Ruiz" "ana.ruiz@company.com" SDR [RETAIL] [SMB] 40 3.

Definition repB : SalesTeamMember :=
  mkMember "sdr-b" "Ben Ode" "ben.ode@company.com" SDR [RETAIL] [SMB] 40 3.

Definition urgentQualified : QualificationSchema :=
  {| category := QUALIFIED; priority := URGENT; leadScore := 70;
     reason := "clear timeline"; industry := None; companySize := Some SMB;
     estimatedDealValue := None; nextSteps := []; assignedTo := None |}.

Definition hotEnterprise : QualificationSchema :=
  {| category := HOT_LEAD; priority := URGENT; leadScore := 92;
     reason := "decision maker, urgent need"; industry := Some TECHNOLOGY;
     companySize := Some ENTERPRISE; estimatedDealValue := None;
     nextSteps := []; assignedTo := None |}.

Definition hotMidMarket : QualificationSchema :=
  {| category := HOT_LEAD; priority := URGENT; leadScore := 85;
     reason := "urgent need"; industry := Some TECHNOLOGY;
     companySize := Some MID_MARKET; estimatedDealValue := None;
     nextSteps := []; assignedTo := None |}.

Definition hotNoIndustry : QualificationSchema :=
  {| category := HOT_LEAD; priority := HIGH; leadScore := 88;
     reason := "ready to buy"; industry := None; companySize := Some SMB;
     estimatedDealValue := None; nextSteps := []; assignedTo := None |}.

Definition coldRetail : QualificationSchema :=
  {| category := COLD_LEAD; priority := LOW; leadScore := 20;
     reason := "low intent"; industry := Some RETAIL; companySize := Some SMB;
     estimatedDealValue := None; nextSteps := []; assignedTo := None |}.

Definition unqualifiedLead : QualificationSchema :=
  {| category := UNQUALIFIED; priority := LOW; leadScore := 5;
     reason := "outside ICP"; industry := None; companySize := Some STARTUP;
     estimatedDealValue := None; nextSteps := []; assignedTo := None |}.

Definition inquiry : FormSchema :=
  {| email := "lee@shop.example"; name := "Lee Park"; phone := None;
     company := Some "Corner Shop";
     message := "Just browsing, maybe next year." |}.

(** Collaborators that always answer, the classifier with [object]. *)
Definition answering (object : QualificationSchema) : Collaborators :=
  {| researchAgentGenerate := fun _ => Some "research report";
     generateEnrichment := fun _ _ =>
       Some {| companyName := None; companyWebsite := None;
               companyDescription := None; enrCompanySize := None;
               enrIndustry := None; foundedYear := None; headquarters := None;
               revenue := None; fundingInfo := None; techStack := None;
               socialProfiles := None; recentNews := None;
               competitors := None |};
     generateQualification := fun _ _ _ => Some object;
     generateEmailText := fun _ _ _ _ _ => Some "Subject: hello";
     generateFollowUpEmails := fun _ _ _ _ => Some [];
     SLACK_BOT_TOKEN := true;
     SLACK_SIGNING_SECRET := true;
     sendSlackMessageWithButtons := fun _ _ _ _ _ => Some "1700000000.000100" |}.

Definition startOfRun : World := {| router := leadRouter; calls := [] |}.

(** ** Further teams and leads used as instances *)

Definition hotHealthcare : QualificationSchema :=
  {| category := HOT_LEAD; priority := URGENT; leadScore := 90;
     reason := "urgent need"; industry := Some HEALTHCARE;
     companySize := Some MID_MARKET; estimatedDealValue := None;
     nextSteps := []; assignedTo := None |}.

Definition michaelRodriguez : SalesTeamMember :=
  mkMember "ae-2" "Michael Rodriguez" "michael.rodriguez@company.com"
    ENTERPRISE_AE [HEALTHCARE; FINANCE] [ENTERPRISE; MID_MARKET] 15 12.

Definition fullAE1 : SalesTeamMember :=
  mkMember "ae-7" "Omar Haddad" "omar.haddad@company.com" ENTERPRISE_AE
    [TECHNOLOGY] [ENTERPRISE] 10 10.

Definition fullAE2 : SalesTeamMember :=
  mkMember "ae-8" "Lina Berg" "lina.berg@company.com" ENTERPRISE_AE
    [TECHNOLOGY] [ENTERPRISE] 10 12.

Definition teamAtCapacity : LeadRouter :=
  {| salesTeam := [fullAE1; fullAE2] |}.

Definition warmNoIndustry : QualificationSchema :=
  {| category := WARM_LEAD; priority := MEDIUM; leadScore := 45;
     reason := "exploring options"; industry := None;
     companySize := Some MID_MARKET; estimatedDealValue := None;
     nextSteps := []; assignedTo := None |}.

Definition coldRetailRescored : QualificationSchema :=
  {| category := COLD_LEAD; priority := LOW; leadScore := 99;
     reason := "rescored"; industry := Some RETAIL; companySize := Some SMB;
     estimatedDealValue := Some "$100K+"; nextSteps := ["call"];
     assignedTo := Some "the founder" |}.

(** ** What a computation over the world adds to the log *)

(** Every call [c] adds to the log satisfies [P], and the router is handed
    back unchanged. *)
Definition emits {A} (P : Call -> Prop) (c : Run World A) : Prop :=
  forall w, exists cs, snd (c w) = logged w cs /\ Forall P cs.

(** Both environment variables of the Slack application are set. *)
Definition slackConfigured (ext : Collaborators) : bool :=
  SLACK_BOT_TOKEN ext && SLACK_SIGNING_SECRET ext.

Definition supportRequest : QualificationSchema :=
  {| category := SUPPORT; priority := HIGH; leadScore := 30;
     reason := "login problem"; industry := None; companySize := Some SMB;
     estimatedDealValue := None; nextSteps := []; assignedTo := None |}.

(** The answering collaborators, without the Slack signing secret. *)
Definition answeringWithoutSlack (object : QualificationSchema) : Collaborators :=
  {| researchAgentGenerate := researchAgentGenerate (answering object);
     generateEnrichment := generateEnrichment (answering object);
     generateQualification := generateQualification (answering object);
     generateEmailText := generateEmailText (answering object);
     generateFollowUpEmails := generateFollowUpEmails (answering object);
     SLACK_BOT_TOKEN := true;
     SLACK_SIGNING_SECRET := false;
     sendSlackMessageWithButtons :=
       sendSlackMessageWithButtons (answering object) |}.

(** The answering collaborators, with a classifier that rejects. *)
Definition classifierDown : Collaborators :=
  {| researchAgentGenerate := researchAgentGenerate (answering hotMidMarket);
     generateEnrichment := generateEnrichment (answering hotMidMarket);
     generateQualification := fun _ _ _ => None;
     generateEmailText := generateEmailText (answering hotMidMarket);
     generateFollowUpEmails := generateFollowUpEmails (answering hotMidMarket);
     SLACK_BOT_TOKEN := true;
     SLACK_SIGNING_SECRET := true;
     sendSlackMessageWithButtons :=
       sendSlackMessageWithButtons (answering hotMidMarket) |}.

(** The answering collaborators, with an email writer that rejects. *)
Definition writerDown (object : QualificationSchema) : Collaborators :=
  {| researchAgentGenerate := researchAgentGenerate (answering object);
     generateEnrichment := generateEnrichment (answering object);
     generateQualification := generateQualification (answering object);
     generateEmailText := fun _ _ _ _ _ => None;
     generateFollowUpEmails := generateFollowUpEmails (answering object);
     SLACK_BOT_TOKEN := true;
     SLACK_SIGNING_SECRET := true;
     sendSlackMessageWithButtons :=
       sendSlackMessageWithButtons (answering object) |}.

(** The answering collaborators, with a Slack call that rejects. *)
Definition slackDown (object : QualificationSchema) : Collaborators :=
  {| researchAgentGenerate := researchAgentGenerate (answering object);
     generateEnrichment := generateEnrichment (answering object);
     generateQualification := generateQualification (answering object);
     generateEmailText := generateEmailText (answering object);
     generateFollowUpEmails := generateFollowUpEmails (answering object);
     SLACK_BOT_TOKEN := true;
     SLACK_SIGNING_SECRET := true;
     sendSlackMessageWithButtons := fun _ _ _ _ _ => None |}.

(** ** Prospects used as instances *)

Definition prospectKay : Outbound.OutboundProspect :=
  {| Outbound.name := "Kay Osei"; Outbound.email := "kay@acme.example";
     Outbound.company := "Acme"; Outbound.title := Some "CTO";
     Outbound.linkedinUrl := None; Outbound.companyWebsite := None;
     Outbound.targetPersona := None;
     Outbound.campaignType := Outbound.cold_outreach |}.

Definition threeTouches : Outbound.MultiTouchSequence :=
  {| Outbound.touchPoints :=
       [ {| Outbound.day := 0; Outbound.channel := Outbound.Channel.email;
            Outbound.subject := Some "Hello"; Outbound.content := "first";
            Outbound.objective := "open" |};
         {| Outbound.day := 3; Outbound.channel := Outbound.Channel.linkedin;
            Outbound.subject := None; Outbound.content := "second";
            Outbound.objective := "connect" |};
         {| Outbound.day := 5; Outbound.channel := Outbound.Channel.email;
            Outbound.subject := Some "Again"; Outbound.content := "third";
            Outbound.objective := "value" |} ];
     Outbound.totalDuration := 14;
     Outbound.expectedResponseRate := "5%" |}.

(** A qualification with a high score, reaching out or not. *)
Definition highScore (reachOut : bool) : Outbound.ProspectQualification :=
  {| Outbound.shouldReachOut := reachOut; Outbound.score := 95;
     Outbound.reason := "excellent fit"; Outbound.icpFit := Outbound.excellent;
     Outbound.estimatedDealValue := Some "$50K-100K";
     Outbound.bestApproach := "direct"; Outbound.personalizationAngles := [] |}.

(** Outbound services that always answer, the qualifier with [q]. *)
Definition outboundAnswering (q : Outbound.ProspectQualification)
  : Outbound.Services :=
  {| Outbound.researchAgentGenerate := fun _ => Some "prospect research";
     Outbound.generateProspectQualification := fun _ _ => Some q;
     Outbound.generateEmailText := fun _ _ _ => Some "Subject: hi";
     Outbound.generateSequence := fun _ _ _ _ => Some threeTouches;
     Outbound.SLACK_BOT_TOKEN := true;
     Outbound.SLACK_SIGNING_SECRET := true;
     Outbound.sendSlackMessageWithButtons :=
       fun _ _ _ _ => Some "1700000000.000200" |}.

(** * Properties *)

Unset Implicit Arguments.

(** ** Evaluation of the router methods *)

Lemma length_zero_nil {A} (l : list A) :
  (Z.of_nat (List.length l) =? 0) = match l with [] => true | _ => false end.
Proof. destruct l; reflexivity. Qed.

Lemma findLeastBusyRep_given team r :
  findLeastBusyRep (Some team) r = (Returned (leastBusy team), r).
Proof. destruct team; reflexivity. Qed.

Lemma findLeastBusyRep_default r :
  findLeastBusyRep None r = (Returned (leastBusy (salesTeam r)), r).
Proof.
  unfold findLeastBusyRep, bind, gets.
  destruct (salesTeam r); reflexivity.
Qed.

Lemma findBestEnterpriseAE_run q r :
  findBestEnterpriseAE q r = (Returned (bestEnterpriseAE q (salesTeam r)), r).
Proof.
  unfold findBestEnterpriseAE, bestEnterpriseAE, enterpriseAEs, bind, gets.
  rewrite length_zero_nil.
  destruct (filter isEnterpriseAE (salesTeam r)) as [|e es] eqn:E.
  - reflexivity.
  - destruct (find _ (e :: es)); [reflexivity|].
    apply findLeastBusyRep_given.
Qed.

Lemma findIndustryExpert_run i r :
  findIndustryExpert i r = (Returned (industryExpert i (salesTeam r)), r).
Proof.
  unfold findIndustryExpert, industryExpert, bind, gets.
  rewrite length_zero_nil.
  destruct (filter _ (salesTeam r)) as [|e es] eqn:E.
  - reflexivity.
  - apply findLeastBusyRep_given.
Qed.

Lemma routeLead_run q r :
  routeLead q r = (Returned (routed q (salesTeam r)), r).
Proof.
  unfold routeLead, routed, lowerRules, bind, gets.
  rewrite length_zero_nil.
  destruct (salesTeam r) as [|m ms] eqn:E; [reflexivity|].
  assert (Hb : findBestEnterpriseAE q r
               = (Returned (bestEnterpriseAE q (m :: ms)), r))
    by (rewrite findBestEnterpriseAE_run, E; reflexivity).
  assert (Hl : findLeastBusyRep None r = (Returned (leastBusy (m :: ms)), r))
    by (rewrite findLeastBusyRep_default, E; reflexivity).
  assert (Hi : forall i, findIndustryExpert i r
                         = (Returned (industryExpert i (m :: ms)), r))
    by (intro i; rewrite findIndustryExpert_run, E; reflexivity).
  destruct (isHotOrUrgent q).
  - rewrite Hb. destruct (bestEnterpriseAE q (m :: ms)); [reflexivity|].
    destruct (isEnterpriseSize q); [exact Hb|].
    destruct (industry q) as [i|].
    + rewrite Hi. destruct (industryExpert i (m :: ms)); [reflexivity|exact Hl].
    + exact Hl.
  - unfold ret at 1. cbv beta iota.
    destruct (isEnterpriseSize q); [exact Hb|].
    destruct (industry q) as [i|].
    + rewrite Hi. destruct (industryExpert i (m :: ms)); [reflexivity|exact Hl].
    + exact Hl.
Qed.

(** ** Least-busy selection *)

Lemma lessBusy_cases prev current :
  (load prev < load current /\ lessBusy prev current = prev)
  \/ (load current <= load prev /\ lessBusy prev current = current).
Proof.
  unfold lessBusy, load.
  destruct (Z.ltb_spec (orZero (currentLeadCount prev))
                       (orZero (currentLeadCount current))); auto.
Qed.

Lemma reduce1_lessBusy_last rest :
  forall first, LastMinimum (first :: rest) (reduce1 lessBusy first rest).
Proof.
  induction rest as [|y ys IH]; intro first.
  - exists [], []. cbn. repeat split; intros m [].
  - change (reduce1 lessBusy first (y :: ys))
      with (reduce1 lessBusy (lessBusy first y) ys).
    destruct (IH (lessBusy first y)) as (before & after & Heq & Hb & Ha).
    remember (reduce1 lessBusy (lessBusy first y) ys) as w eqn:Ew. clear Ew.
    destruct (lessBusy_cases first y) as [[Hlt Hp] | [Hle Hp]];
      rewrite Hp in Heq; destruct before as [|b bs]; cbn in Heq;
      injection Heq as Hw Hys; subst.
    + exists [], (y :: after). repeat split.
      * intros m [].
      * intros m [<- | Hm]; [exact Hlt | now apply Ha].
    + exists (b :: y :: bs), after. repeat split.
      * intros m [<- | [<- | Hm]].
        -- apply Hb. now left.
        -- assert (load w <= load b) by (apply Hb; now left). lia.
        -- apply Hb. now right.
      * exact Ha.
    + exists [first], after. repeat split.
      * intros m [<- | []]. exact Hle.
      * exact Ha.
    + exists (first :: b :: bs), after. repeat split.
      * intros m [<- | [<- | Hm]].
        -- assert (load w <= load b) by (apply Hb; now left). lia.
        -- apply Hb. now left.
        -- apply Hb. now right.
      * exact Ha.
Qed.

Lemma LastMinimum_in team w : LastMinimum team w -> In w team.
Proof.
  intros (before & after & -> & _). apply in_or_app. right. now left.
Qed.

Lemma LastMinimum_least team w :
  LastMinimum team w -> forall m, In m team -> load w <= load m.
Proof.
  intros (before & after & -> & Hb & Ha) m Hm.
  apply in_app_or in Hm. destruct Hm as [Hm | [<- | Hm]].
  - now apply Hb.
  - lia.
  - apply Z.lt_le_incl. now apply Ha.
Qed.

Lemma leastBusy_last team :
  team <> [] -> exists w, leastBusy team = Some w /\ LastMinimum team w.
Proof.
  destruct team as [|first rest]; [congruence|]. intros _.
  exists (reduce1 lessBusy first rest). split; [reflexivity|].
  apply reduce1_lessBusy_last.
Qed.

Lemma leastBusy_in team w : leastBusy team = Some w -> In w team.
Proof.
  destruct team as [|first rest]; [discriminate|].
  intros [= <-]. apply LastMinimum_in, reduce1_lessBusy_last.
Qed.

(** ** The enterprise tier and the lower rules *)

Lemma isEnterpriseAE_role m : isEnterpriseAE m = true <-> role m = ENTERPRISE_AE.
Proof.
  unfold isEnterpriseAE. destruct (role m); cbn; split; congruence.
Qed.

Lemma enterpriseAEs_spec team m :
  In m (enterpriseAEs team) <-> In m team /\ role m = ENTERPRISE_AE.
Proof.
  unfold enterpriseAEs. rewrite filter_In, isEnterpriseAE_role. reflexivity.
Qed.

Lemma enterpriseAEs_nil team :
  (forall m, In m team -> role m <> ENTERPRISE_AE) -> enterpriseAEs team = [].
Proof.
  intros H. destruct (enterpriseAEs team) as [|e es] eqn:E; [reflexivity|].
  assert (Hin : In e (enterpriseAEs team)) by (rewrite E; now left).
  apply enterpriseAEs_spec in Hin. destruct Hin as [Hin Hr].
  now apply H in Hin.
Qed.

Lemma bestEnterpriseAE_in q team w :
  bestEnterpriseAE q team = Some w -> In w (enterpriseAEs team).
Proof.
  unfold bestEnterpriseAE.
  destruct (find _ (enterpriseAEs team)) as [ae|] eqn:F.
  - intros [= <-]. now apply find_some in F.
  - apply leastBusy_in.
Qed.

Lemma bestEnterpriseAE_some q team :
  enterpriseAEs team <> [] -> exists w, bestEnterpriseAE q team = Some w.
Proof.
  intros H. unfold bestEnterpriseAE.
  destruct (find _ (enterpriseAEs team)) as [ae|]; [now exists ae|].
  destruct (leastBusy_last _ H) as (w & -> & _). now exists w.
Qed.

Lemma bestEnterpriseAE_none q team :
  enterpriseAEs team = [] -> bestEnterpriseAE q team = None.
Proof. unfold bestEnterpriseAE. now intros ->. Qed.

Lemma isHotOrUrgent_true q :
  category q = HOT_LEAD \/ priority q = URGENT -> isHotOrUrgent q = true.
Proof.
  unfold isHotOrUrgent. intros [-> | ->]; cbn; [reflexivity|].
  apply orb_true_r.
Qed.

Lemma isEnterpriseSize_true q :
  isEnterpriseSize q = true <-> companySize q = Some ENTERPRISE.
Proof.
  unfold isEnterpriseSize.
  destruct (companySize q) as [[]|]; split; congruence.
Qed.

Lemma lowerRules_in q team w : lowerRules q team = Some w -> In w team.
Proof.
  unfold lowerRules, industryExpert.
  destruct (industry q) as [i|].
  - destruct (leastBusy (filter _ team)) as [e|] eqn:E.
    + intros [= <-]. apply leastBusy_in in E.
      apply filter_In in E. tauto.
    + apply leastBusy_in.
  - apply leastBusy_in.
Qed.

Lemma lowerRules_some q team :
  team <> [] -> exists w, lowerRules q team = Some w.
Proof.
  intros H. unfold lowerRules.
  destruct (match industry q with Some i => _ | None => _ end) as [e|];
    [now exists e|].
  destruct (leastBusy_last _ H) as (w & -> & _). now exists w.
Qed.

(** ** C1: hot or urgent leads *)

(** C1. A lead that is HOT_LEAD or URGENT, routed over a team with at least
    one ENTERPRISE_AE, is given to a member of the team whose role is
    ENTERPRISE_AE; the call returns and does not throw. *)
Theorem routeLead_hot_or_urgent_enterprise (q : QualificationSchema) (r : LeadRouter) :
  category q = HOT_LEAD \/ priority q = URGENT ->
  (exists m, In m (salesTeam r) /\ role m = ENTERPRISE_AE) ->
  exists w, routeLead q r = (Returned (Some w), r)
            /\ In w (salesTeam r) /\ role w = ENTERPRISE_AE.
Proof.
  intros Hq (m & Hin & Hrole).
  rewrite routeLead_run. unfold routed.
  destruct (salesTeam r) as [|m0 ms] eqn:E; [destruct Hin|].
  rewrite (isHotOrUrgent_true q Hq).
  assert (Hne : enterpriseAEs (m0 :: ms) <> []).
  { intro Hnil. assert (Hm : In m (enterpriseAEs (m0 :: ms)))
      by (apply enterpriseAEs_spec; auto).
    rewrite Hnil in Hm. destruct Hm. }
  destruct (bestEnterpriseAE_some q _ Hne) as (w & Hw).
  rewrite Hw. exists w. split; [reflexivity|].
  apply bestEnterpriseAE_in, enterpriseAEs_spec in Hw. exact Hw.
Qed.

Lemma routeLead_hot_or_urgent_enterprise_witness :
  exists w, routeLead urgentQualified leadRouter = (Returned (Some w), leadRouter)
            /\ In w (salesTeam leadRouter) /\ role w = ENTERPRISE_AE.
Proof.
  apply (routeLead_hot_or_urgent_enterprise urgentQualified leadRouter).
  - right. reflexivity.
  - eexists. split; [left; reflexivity | reflexivity].
Defined.

(** ** C2: which candidate the least-busy selection picks *)

(** C2, as stated, fails: of two candidates with the same load the selection
    returns the second, which is not the first position of minimum load. *)
Lemma findLeastBusyRep_tie_takes_later :
  findLeastBusyRep (Some [repA; repB]) leadRouter
    = (Returned (Some repB), leadRouter)
  /\ load repA = load repB
  /\ ~ FirstMinimum [repA; repB] repB.
Proof.
  split; [reflexivity|]. split; [reflexivity|].
  intros (before & after & Heq & Hb & _).
  destruct before as [|b0 [|b1 bs]]; cbn in Heq.
  - discriminate Heq.
  - injection Heq as <- _.
    specialize (Hb repA (or_introl eq_refl)). cbv in Hb. discriminate Hb.
  - injection Heq as _ _ Hnil. destruct bs; discriminate Hnil.
Qed.

(** C2, amended. On a non-empty candidate set the least-busy selection
    returns a candidate of minimum load (a missing count is 0); among several
    candidates of minimum load it returns the one that comes last in
    iteration order. *)
Theorem findLeastBusyRep_last_minimum
  (given : option (list SalesTeamMember)) (r : LeadRouter) :
  candidatesOf given r <> [] ->
  exists w, findLeastBusyRep given r = (Returned (Some w), r)
            /\ In w (candidatesOf given r)
            /\ (forall m, In m (candidatesOf given r) ->
                  orZero (currentLeadCount w) <= orZero (currentLeadCount m))
            /\ LastMinimum (candidatesOf given r) w.
Proof.
  intros Hne.
  destruct (leastBusy_last _ Hne) as (w & Hw & Hlast).
  exists w. split.
  - destruct given as [t|]; unfold candidatesOf in Hw.
    + rewrite findLeastBusyRep_given. now rewrite Hw.
    + rewrite findLeastBusyRep_default. now rewrite Hw.
  - split; [now apply LastMinimum_in|].
    split; [exact (LastMinimum_least _ _ Hlast) | exact Hlast].
Qed.

Lemma findLeastBusyRep_last_minimum_witness :
  exists w, findLeastBusyRep None leadRouter = (Returned (Some w), leadRouter)
            /\ In w (candidatesOf None leadRouter)
            /\ (forall m, In m (candidatesOf None leadRouter) ->
                  orZero (currentLeadCount w) <= orZero (currentLeadCount m))
            /\ LastMinimum (candidatesOf None leadRouter) w.
Proof.
  apply (findLeastBusyRep_last_minimum None leadRouter).
  cbn. discriminate.
Defined.

(** ** C5: the empty team *)

(** C5. Over an empty team, for every classification, [routeLead] returns
    null and [getRoutingRecommendation] returns a null assignee with the
    reason that no sales team is configured; neither throws. *)
Theorem empty_team_no_match (q : QualificationSchema) :
  routeLead q noTeam = (Returned None, noTeam)
  /\ getRoutingRecommendation q noTeam
     = (Returned {| recAssignedTo := None;
                    recReason := "No sales team configured. Please assign manually." |},
        noTeam).
Proof. split; reflexivity. Qed.

(** ** C7: routing does not change the team *)

Lemma getRoutingRecommendation_frame q r :
  exists rec, getRoutingRecommendation q r = (Returned rec, r)
              /\ recAssignedTo rec = routed q (salesTeam r).
Proof.
  unfold getRoutingRecommendation, bind. rewrite routeLead_run.
  destruct (routed q (salesTeam r)); eexists; split; reflexivity.
Qed.

(** C7. Computing a routing decision leaves the router, hence the worker
    pool and every field of every worker, as it was: both [routeLead] and
    [getRoutingRecommendation] hand back the router they received. *)
Theorem routing_leaves_pool_unchanged (q : QualificationSchema) (r : LeadRouter) :
  snd (routeLead q r) = r
  /\ snd (getRoutingRecommendation q r) = r
  /\ salesTeam (snd (routeLead q r)) = salesTeam r
  /\ salesTeam (snd (getRoutingRecommendation q r)) = salesTeam r.
Proof.
  destruct (getRoutingRecommendation_frame q r) as (rec & Hrec & _).
  rewrite routeLead_run, Hrec. repeat split.
Qed.

(** ** C9: enterprise-sized leads without an enterprise AE *)

(** C9. When no member of the team is an ENTERPRISE_AE: a lead whose
    companySize is ENTERPRISE gets null, whatever else the team holds; any
    other lead, HOT_LEAD and URGENT ones included, falls through to the
    industry-expert and least-busy rules and gets a member of a non-empty
    team. *)
Theorem enterprise_size_without_enterprise_AE
  (q : QualificationSchema) (r : LeadRouter) :
  (forall m, In m (salesTeam r) -> role m <> ENTERPRISE_AE) ->
  (companySize q = Some ENTERPRISE -> routeLead q r = (Returned None, r))
  /\ (companySize q <> Some ENTERPRISE -> salesTeam r <> [] ->
      exists w, routeLead q r = (Returned (Some w), r)
                /\ lowerRules q (salesTeam r) = Some w
                /\ In w (salesTeam r)).
Proof.
  intros Hno. rewrite routeLead_run. unfold routed.
  pose proof (bestEnterpriseAE_none q _ (enterpriseAEs_nil _ Hno)) as Hb.
  split.
  - intros Hsize. apply isEnterpriseSize_true in Hsize.
    destruct (salesTeam r); [reflexivity|].
    rewrite Hb, Hsize. now destruct (isHotOrUrgent q).
  - intros Hsize Hne.
    assert (Hs : isEnterpriseSize q = false).
    { destruct (isEnterpriseSize q) eqn:S; [|reflexivity].
      now apply isEnterpriseSize_true in S. }
    destruct (lowerRules_some q _ Hne) as (w & Hw).
    exists w. destruct (salesTeam r) as [|m ms]; [congruence|].
    rewrite Hb, Hs, Hw.
    split; [now destruct (isHotOrUrgent q)|].
    split; [reflexivity | now apply (lowerRules_in q)].
Qed.

Lemma teamWithoutEnterpriseAE_roles :
  forall m, In m (salesTeam teamWithoutEnterpriseAE) -> role m <> ENTERPRISE_AE.
Proof. cbn. intros m [<- | [<- | [<- | []]]]; discriminate. Qed.

Lemma enterprise_size_without_enterprise_AE_witness :
  routeLead hotEnterprise teamWithoutEnterpriseAE
    = (Returned None, teamWithoutEnterpriseAE)
  /\ exists w, routeLead hotMidMarket teamWithoutEnterpriseAE
                 = (Returned (Some w), teamWithoutEnterpriseAE)
               /\ lowerRules hotMidMarket (salesTeam teamWithoutEnterpriseAE) = Some w
               /\ In w (salesTeam teamWithoutEnterpriseAE).
Proof.
  split.
  - apply (enterprise_size_without_enterprise_AE hotEnterprise
             teamWithoutEnterpriseAE teamWithoutEnterpriseAE_roles).
    reflexivity.
  - apply (enterprise_size_without_enterprise_AE hotMidMarket
             teamWithoutEnterpriseAE teamWithoutEnterpriseAE_roles).
    + discriminate.
    + discriminate.
Defined.

(** ** C10: the capacity test *)

(** C10. In the enterprise-AE capacity test a worker whose maxActiveLeads is
    unset or 0 always has capacity, and a missing currentLeadCount counts as
    0; so an ENTERPRISE_AE with maxActiveLeads 0 whose industries include
    the lead's industry is returned by the industry-and-capacity match when
    no ENTERPRISE_AE stands before it in the team, whatever its load. *)
Theorem capacity_unset_or_zero_is_unlimited (ae : SalesTeamMember) :
  (maxActiveLeads ae = None \/ maxActiveLeads ae = Some 0 ->
   hasCapacity ae = true)
  /\ (currentLeadCount ae = None ->
      hasCapacity ae
      = (falsy (maxActiveLeads ae) || ltNumber 0 (maxActiveLeads ae))%bool)
  /\ (forall q i before after r,
        maxActiveLeads ae = Some 0 ->
        role ae = ENTERPRISE_AE ->
        industry q = Some i ->
        includesIndustry (industries ae) i = true ->
        salesTeam r = before ++ ae :: after ->
        (forall m, In m before -> role m <> ENTERPRISE_AE) ->
        findBestEnterpriseAE q r = (Returned (Some ae), r)).
Proof.
  split; [|split].
  - unfold hasCapacity. intros [-> | ->]; reflexivity.
  - unfold hasCapacity. now intros ->.
  - intros q i before after r Hmax Hrole Hind Hinc Hteam Hbefore.
    rewrite findBestEnterpriseAE_run, Hteam.
    unfold bestEnterpriseAE, enterpriseAEs.
    rewrite filter_app.
    fold (enterpriseAEs before). rewrite (enterpriseAEs_nil _ Hbefore).
    cbn [app filter].
    rewrite (proj2 (isEnterpriseAE_role ae) Hrole).
    cbn [find]. unfold hasIndustryMatch, hasCapacity.
    rewrite Hind, Hinc, Hmax. reflexivity.
Qed.

Lemma capacity_unset_or_zero_is_unlimited_witness :
  hasCapacity saturatedAE = true
  /\ findBestEnterpriseAE hotEnterprise teamWithSaturatedAE
     = (Returned (Some saturatedAE), teamWithSaturatedAE).
Proof.
  pose proof (capacity_unset_or_zero_is_unlimited saturatedAE) as (H0 & _ & Hsel).
  split.
  - apply H0. right. reflexivity.
  - apply (Hsel hotEnterprise TECHNOLOGY (skipn 2 defaultSalesTeam)
             (firstn 2 defaultSalesTeam) teamWithSaturatedAE);
      try reflexivity.
    exact teamWithoutEnterpriseAE_roles.
Defined.

(** ** C8: the reason against the rule that fired *)

(** Dropping the labels gives [routeLead] back. *)
Lemma routeLeadLabelled_forget q r :
  routeLead q r
  = (forget (fst (routeLeadLabelled q r)), snd (routeLeadLabelled q r)).
Proof.
  unfold routeLead, routeLeadLabelled, label, bind, gets.
  destruct (Z.of_nat (List.length (salesTeam r)) =? 0); [reflexivity|].
  destruct (isHotOrUrgent q), (isEnterpriseSize q), (industry q) as [i|];
    repeat (unfold ret;
            rewrite ?findBestEnterpriseAE_run,
                    ?findIndustryExpert_run,
                    ?findLeastBusyRep_default;
            cbv beta iota;
            try match goal with
                | |- context [bestEnterpriseAE ?a ?b] =>
                    destruct (bestEnterpriseAE a b)
                | |- context [industryExpert ?a ?b] =>
                    destruct (industryExpert a b)
                | |- context [leastBusy ?a] =>
                    destruct (leastBusy a)
                end);
    reflexivity.
Qed.

(** C8, on the default team. An URGENT lead that is not HOT_LEAD is assigned
    by the hot-or-urgent rule, and the reason given is the one of the
    least-busy rule; a HOT_LEAD routed over a team without an ENTERPRISE_AE
    is assigned by the least-busy rule to an AE, and the reason given is the
    one of the hot-or-urgent rule. *)
Theorem reason_names_another_rule :
  routeLeadLabelled urgentQualified leadRouter
    = (Returned (Some (HotOrUrgentRule, sarahChen)), leadRouter)
  /\ getRoutingRecommendation urgentQualified leadRouter
     = (Returned {| recAssignedTo := Some sarahChen;
                    recReason := "Assigned to Sarah Chen (ENTERPRISE_AE)"
                                   +++ explanation LeastBusyRule
                                         urgentQualified |},
        leadRouter)
  /\ routeLeadLabelled hotNoIndustry teamWithoutEnterpriseAE
     = (Returned (Some (LeastBusyRule, davidKim)),
        teamWithoutEnterpriseAE)
  /\ getRoutingRecommendation hotNoIndustry teamWithoutEnterpriseAE
     = (Returned {| recAssignedTo := Some davidKim;
                    recReason := "Assigned to David Kim (AE)"
                                   +++ explanation HotOrUrgentRule
                                         hotNoIndustry |},
        teamWithoutEnterpriseAE).
Proof. repeat split. Qed.

(** ** C6: the template selector *)

Lemma getEmailTemplateType_selectable q : In (getEmailTemplateType q) selectable.
Proof.
  unfold getEmailTemplateType, selectable.
  destruct (category q); cbn; tauto.
Qed.

(** C6, as stated, fails: QUALIFIED and WARM_LEAD select the same template,
    no category selects COLD_OUTREACH, and no seven categories select seven
    distinct templates. *)
Lemma getEmailTemplateType_not_seven_distinct :
  getEmailTemplateType (classified QUALIFIED)
    = getEmailTemplateType (classified WARM_LEAD)
  /\ (forall c, EmailTemplateType_beq (getEmailTemplateType (classified c))
                  COLD_OUTREACH = false)
  /\ ~ (exists cats : list QualificationCategory,
          NoDup cats /\ List.length cats = 7%nat
          /\ NoDup (map (fun c => getEmailTemplateType (classified c)) cats)).
Proof.
  split; [reflexivity|]. split; [intros []; reflexivity|].
  intros (cats & _ & Hlen & Hnd).
  assert (Hincl : incl (map (fun c => getEmailTemplateType (classified c)) cats)
                       selectable).
  { intros t Ht. apply in_map_iff in Ht. destruct Ht as (c & <- & _).
    apply getEmailTemplateType_selectable. }
  pose proof (NoDup_incl_length Hnd Hincl) as Hle.
  rewrite length_map, Hlen in Hle. cbn in Hle. lia.
Qed.

(** C6, amended. The template selector is a function of the category alone:
    HOT_LEAD, QUALIFIED, WARM_LEAD, FOLLOW_UP, SUPPORT and PARTNER are mapped
    to five template kinds (QUALIFIED and WARM_LEAD share
    QUALIFIED_RESPONSE), and the remaining categories, COLD_LEAD and
    UNQUALIFIED, default to NURTURE. *)
Theorem getEmailTemplateType_by_category :
  exists f : QualificationCategory -> EmailTemplateType,
    (forall q, getEmailTemplateType q = f (category q))
    /\ f HOT_LEAD = HOT_LEAD_RESPONSE
    /\ f QUALIFIED = QUALIFIED_RESPONSE
    /\ f WARM_LEAD = QUALIFIED_RESPONSE
    /\ f FOLLOW_UP = T_FOLLOW_UP
    /\ f SUPPORT = SUPPORT_REDIRECT
    /\ f PARTNER = PARTNER_OUTREACH
    /\ f COLD_LEAD = NURTURE
    /\ f UNQUALIFIED = NURTURE.
Proof.
  exists (fun c => getEmailTemplateType (classified c)).
  split; [|repeat split].
  intro q. unfold getEmailTemplateType. cbn. reflexivity.
Qed.

(** ** Evaluation of the inbound workflow *)

Lemma logged_logged w a b : logged (logged w a) b = logged w (a ++ b).
Proof. unfold logged. cbn. now rewrite app_assoc. Qed.

Lemma record_run c w : record c w = (Returned tt, logged w [c]).
Proof. reflexivity. Qed.

Lemma await_resolves {A} c (a : A) w :
  await c (Some a) w = (Returned a, logged w [c]).
Proof. reflexivity. Qed.

Lemma await_rejects {A} c w :
  await c (@None A) w = (Threw "rejected", logged w [c]).
Proof. reflexivity. Qed.

Lemma routedQualification_category object r :
  category (routedQualification object r) = category object.
Proof.
  unfold routedQualification.
  destruct (fst (getRoutingRecommendation object r)) as [routing|];
    [destruct (recAssignedTo routing)|]; reflexivity.
Qed.

Lemma qualify_run ext lead research enrichment object w :
  generateQualification ext lead research enrichment = Some object ->
  qualify ext lead research enrichment w
  = (Returned (routedQualification object (router w)),
     logged w [CallGenerateQualification; CallGetRoutingRecommendation object]).
Proof.
  intros Hq. unfold qualify, bind, tryCatch. rewrite Hq, await_resolves.
  rewrite record_run, logged_logged. unfold onRouter, routedQualification.
  cbn [router logged app].
  destruct (getRoutingRecommendation_frame object (router w))
    as (routing & -> & _).
  cbn [fst]. destruct (recAssignedTo routing); reflexivity.
Qed.

(** A run on a lead classified COLD_LEAD or UNQUALIFIED: the calls made,
    and the outcome, which is the summary unless the email generation
    rejects. *)
Lemma workflowInbound_unreviewed ext data w research enrichment object :
  researchAgentGenerate ext data = Some research ->
  generateEnrichment ext data research = Some enrichment ->
  generateQualification ext data research enrichment = Some object ->
  category object = UNQUALIFIED \/ category object = COLD_LEAD ->
  workflowInbound ext data w
  = (match generateEmailText ext data research
             (routedQualification object (router w)) enrichment NURTURE with
     | Some _ =>
         Returned (summaryOf data (routedQualification object (router w)))
     | None => Threw "rejected"
     end,
     logged w [CallResearchAgent; CallEnrichLead; CallGenerateQualification;
               CallGetRoutingRecommendation object; CallWriteEmail NURTURE]).
Proof.
  intros Hres Henr Hq Hcat.
  unfold workflowInbound, stepResearch, stepEnrichment, enrichLead,
    stepQualify, bind.
  rewrite Hres, await_resolves, Henr, await_resolves.
  rewrite (qualify_run _ _ _ _ _ _ Hq).
  rewrite routedQualification_category, !logged_logged.
  change (router (logged w ([CallResearchAgent] ++ [CallEnrichLead])))
    with (router w).
  assert (Ht : getEmailTemplateType (routedQualification object (router w))
               = NURTURE).
  { unfold getEmailTemplateType. rewrite routedQualification_category.
    destruct Hcat as [-> | ->]; reflexivity. }
  unfold stepWriteEmail, writeEmail. rewrite Ht.
  destruct Hcat as [-> | ->];
    (destruct (generateEmailText ext data research
                 (routedQualification object (router w)) enrichment NURTURE);
     [rewrite await_resolves | rewrite await_rejects];
     unfold ret; rewrite ?logged_logged; reflexivity).
Qed.

(** ** C3: a COLD_LEAD run *)

(** C3, as stated, fails: on the default team a COLD_LEAD run consults the
    router and comes back with an assignment. *)
Lemma cold_lead_is_routed_and_assigned :
  category coldRetail = COLD_LEAD
  /\ salesTeam (router startOfRun) <> []
  /\ In (CallGetRoutingRecommendation coldRetail)
        (calls (snd (workflowInbound (answering coldRetail) inquiry startOfRun)))
  /\ exists summary,
       fst (workflowInbound (answering coldRetail) inquiry startOfRun)
         = Returned summary
       /\ sumAssignedTo summary
          = Some ("David Kim (david.kim@company.com) - "
                    +++ "Assigned to David Kim (AE) - Industry expertise: RETAIL").
Proof.
  split; [reflexivity|]. split; [discriminate|].
  split; [vm_compute; tauto|].
  eexists. split; vm_compute; reflexivity.
Qed.

(** C3, amended. For a lead classified COLD_LEAD and a non-empty worker
    pool, when the collaborators answer, the run returns its summary after
    exactly five calls: research, enrichment, classification, one
    consultation of the router, and one email with the NURTURE template.
    The approval gate is not invoked and no follow-up sequence is generated;
    the pool is unchanged. The router is consulted, and when it returns a
    worker the summary's assignedTo names that worker and the router's
    reason. *)
Theorem cold_lead_run
  (ext : Collaborators) (data : FormSchema) (w : World)
  (research : string) (enrichment : LeadEnrichmentSchema)
  (object : QualificationSchema) (emailText : string) :
  researchAgentGenerate ext data = Some research ->
  generateEnrichment ext data research = Some enrichment ->
  generateQualification ext data research enrichment = Some object ->
  category object = COLD_LEAD ->
  salesTeam (router w) <> [] ->
  generateEmailText ext data research
    (routedQualification object (router w)) enrichment NURTURE = Some emailText ->
  workflowInbound ext data w
  = (Returned (summaryOf data (routedQualification object (router w))),
     {| router := router w;
        calls := calls w ++ [CallResearchAgent; CallEnrichLead;
                             CallGenerateQualification;
                             CallGetRoutingRecommendation object;
                             CallWriteEmail NURTURE] |})
  /\ exists routing,
       getRoutingRecommendation object (router w) = (Returned routing, router w)
       /\ forall m, recAssignedTo routing = Some m ->
            sumAssignedTo (summaryOf data (routedQualification object (router w)))
            = Some (memberName m +++ " (" +++ memberEmail m +++ ") - "
                      +++ recReason routing).
Proof.
  intros Hres Henr Hq Hcat _ Hmail. split.
  - rewrite (workflowInbound_unreviewed _ _ w _ _ _ Hres Henr Hq (or_intror Hcat)).
    now rewrite Hmail.
  - destruct (getRoutingRecommendation_frame object (router w))
      as (routing & Hrec & _).
    exists routing. split; [exact Hrec|].
    intros m Hm. unfold routedQualification. now rewrite Hrec; cbn; rewrite Hm.
Qed.

Lemma cold_lead_run_witness :
  workflowInbound (answering coldRetail) inquiry startOfRun
  = (Returned (summaryOf inquiry (routedQualification coldRetail leadRouter)),
     {| router := leadRouter;
        calls := [CallResearchAgent; CallEnrichLead; CallGenerateQualification;
                  CallGetRoutingRecommendation coldRetail;
                  CallWriteEmail NURTURE] |}).
Proof.
  refine (proj1 (cold_lead_run (answering coldRetail) inquiry startOfRun
                   _ _ coldRetail "Subject: hello" _ _ _ _ _ _));
    try reflexivity.
  discriminate.
Defined.

(** ** C4: categories that never reach the approval gate *)

(** C4. For a lead classified UNQUALIFIED or COLD_LEAD the run never calls
    the approval step and never sends the Slack approval request, whether or
    not the email generation succeeds; it generates no follow-up sequence
    (for UNQUALIFIED, and for COLD_LEAD as well). *)
Theorem unqualified_and_cold_never_await_approval
  (ext : Collaborators) (data : FormSchema) (w : World)
  (research : string) (enrichment : LeadEnrichmentSchema)
  (object : QualificationSchema) :
  researchAgentGenerate ext data = Some research ->
  generateEnrichment ext data research = Some enrichment ->
  generateQualification ext data research enrichment = Some object ->
  category object = UNQUALIFIED \/ category object = COLD_LEAD ->
  exists new,
    calls (snd (workflowInbound ext data w)) = calls w ++ new
    /\ ~ In CallStepHumanFeedback new
    /\ ~ In CallSendSlackMessage new
    /\ ~ In CallGenerateFollowUpSequence new.
Proof.
  intros Hres Henr Hq Hcat.
  rewrite (workflowInbound_unreviewed _ _ w _ _ _ Hres Henr Hq Hcat).
  eexists. split; [reflexivity|].
  repeat split; cbn; intros H;
    repeat (destruct H as [H | H]; [discriminate H|]); exact H.
Qed.

Lemma unqualified_and_cold_never_await_approval_witness :
  exists new,
    calls (snd (workflowInbound (answering unqualifiedLead) inquiry startOfRun))
      = calls startOfRun ++ new
    /\ ~ In CallStepHumanFeedback new
    /\ ~ In CallSendSlackMessage new
    /\ ~ In CallGenerateFollowUpSequence new.
Proof.
  refine (unqualified_and_cold_never_await_approval
            (answering unqualifiedLead) inquiry startOfRun
            _ _ unqualifiedLead _ _ _ _); try reflexivity.
  left. reflexivity.
Defined.

(** * Further properties of the routing engine *)

(** ** List facts *)

Lemma find_filter {A} (f g : A -> bool) (l : list A) :
  find f (filter g l) = find (fun x => g x && f x) l.
Proof.
  induction l as [|x xs IH]; [reflexivity|].
  cbn. destruct (g x); cbn; [destruct (f x)|]; auto.
Qed.

Lemma find_first {A} (f : A -> bool) (l : list A) (x : A) :
  find f l = Some x ->
  exists l1 l2, l = l1 ++ x :: l2 /\ f x = true
                /\ forall y, In y l1 -> f y = false.
Proof.
  induction l as [|a l IH]; [discriminate|].
  cbn. destruct (f a) eqn:Fa.
  - intros [= <-]. exists [], l. repeat split; [exact Fa | intros y []].
  - intros H. destruct (IH H) as (l1 & l2 & -> & Fx & Hl1).
    exists (a :: l1), l2. repeat split; [exact Fx|].
    intros y [<- | Hy]; [exact Fa | now apply Hl1].
Qed.

Lemma find_some_exists {A} (f : A -> bool) (l : list A) :
  (exists x, In x l /\ f x = true) -> exists y, find f l = Some y.
Proof.
  intros (x & Hin & Fx). destruct (find f l) as [y|] eqn:F; [now exists y|].
  rewrite (find_none f l F x Hin) in Fx. discriminate.
Qed.

Lemma find_all_false {A} (f : A -> bool) (l : list A) :
  (forall x, In x l -> f x = false) -> find f l = None.
Proof.
  intros H. destruct (find f l) as [y|] eqn:F; [|reflexivity].
  apply find_some in F. destruct F as [Hin Fy].
  rewrite (H y Hin) in Fy. discriminate.
Qed.

(** ** Who can be returned *)

Lemma routed_in q team w : routed q team = Some w -> In w team.
Proof.
  unfold routed. destruct team as [|m ms]; [discriminate|].
  destruct (isHotOrUrgent q).
  - destruct (bestEnterpriseAE q (m :: ms)) as [ae|] eqn:B.
    + intros [= <-]. apply bestEnterpriseAE_in, enterpriseAEs_spec in B. tauto.
    + destruct (isEnterpriseSize q); [congruence | apply lowerRules_in].
  - destruct (isEnterpriseSize q); [|apply lowerRules_in].
    intros B. apply bestEnterpriseAE_in, enterpriseAEs_spec in B. tauto.
Qed.

Lemma enterpriseAEs_nil_iff team :
  enterpriseAEs team = [] <-> (forall m, In m team -> role m <> ENTERPRISE_AE).
Proof.
  split; [|apply enterpriseAEs_nil].
  intros Hnil m Hin Hrole.
  assert (H : In m (enterpriseAEs team)) by (apply enterpriseAEs_spec; auto).
  rewrite Hnil in H. destruct H.
Qed.

Lemma bestEnterpriseAE_none_iff q team :
  bestEnterpriseAE q team = None <-> enterpriseAEs team = [].
Proof.
  split; [|apply bestEnterpriseAE_none].
  intros Hb. destruct (enterpriseAEs team) as [|e es] eqn:E; [reflexivity|].
  destruct (bestEnterpriseAE_some q team) as (w & Hw); [rewrite E|]; congruence.
Qed.

(** X1. Whoever [routeLead] returns is a member of the team it was given. *)
Theorem routeLead_returns_team_member
  (q : QualificationSchema) (r : LeadRouter) (w : SalesTeamMember) :
  fst (routeLead q r) = Returned (Some w) -> In w (salesTeam r).
Proof.
  rewrite routeLead_run. cbn [fst]. intros [= H]. now apply (routed_in q).
Qed.

Lemma routeLead_returns_team_member_witness :
  In sarahChen (salesTeam leadRouter).
Proof.
  apply (routeLead_returns_team_member urgentQualified leadRouter sarahChen).
  reflexivity.
Defined.

Lemma routed_none_iff q team :
  routed q team = None
  <-> team = []
      \/ (companySize q = Some ENTERPRISE
          /\ forall m, In m team -> role m <> ENTERPRISE_AE).
Proof.
  rewrite <- enterpriseAEs_nil_iff, <- isEnterpriseSize_true.
  unfold routed. destruct team as [|m ms].
  - split; auto.
  - pose proof (bestEnterpriseAE_none_iff q (m :: ms)) as Hb.
    destruct (lowerRules_some q (m :: ms)) as (w & Hw); [discriminate|].
    split.
    + intros H. right.
      destruct (isHotOrUrgent q), (bestEnterpriseAE q (m :: ms)) as [ae|],
        (isEnterpriseSize q); try congruence; split; auto; now apply Hb.
    + intros [H | [Hs Hnil]]; [discriminate|].
      rewrite Hs, (proj2 Hb Hnil). now destruct (isHotOrUrgent q).
Qed.

(** X2. [routeLead] returns null in exactly two situations: the team is
    empty, or the lead's companySize is ENTERPRISE and no member of the team
    is an ENTERPRISE_AE. *)
Theorem routeLead_no_match_iff (q : QualificationSchema) (r : LeadRouter) :
  routeLead q r = (Returned None, r)
  <-> salesTeam r = []
      \/ (companySize q = Some ENTERPRISE
          /\ forall m, In m (salesTeam r) -> role m <> ENTERPRISE_AE).
Proof.
  rewrite routeLead_run, <- routed_none_iff.
  split; [now intros [= ->] | now intros ->].
Qed.

Lemma routeLead_no_match_iff_witness :
  routeLead hotEnterprise teamWithoutEnterpriseAE
  = (Returned None, teamWithoutEnterpriseAE).
Proof.
  apply (routeLead_no_match_iff hotEnterprise teamWithoutEnterpriseAE).
  right. split; [reflexivity | exact teamWithoutEnterpriseAE_roles].
Defined.

(** X3. For an ENTERPRISE-sized lead and a team without ENTERPRISE_AE, the
    recommendation has no assignee and its reason says that no sales team is
    configured, also when the team has members. *)
Theorem enterprise_lead_told_no_team_configured
  (q : QualificationSchema) (r : LeadRouter) :
  companySize q = Some ENTERPRISE ->
  (forall m, In m (salesTeam r) -> role m <> ENTERPRISE_AE) ->
  getRoutingRecommendation q r
  = (Returned {| recAssignedTo := None;
                 recReason := "No sales team configured. Please assign manually." |},
     r).
Proof.
  intros Hs Hno.
  unfold getRoutingRecommendation, bind.
  rewrite routeLead_run.
  rewrite (proj2 (routed_none_iff q (salesTeam r)) (or_intror (conj Hs Hno))).
  reflexivity.
Qed.

Lemma enterprise_lead_told_no_team_configured_witness :
  salesTeam teamWithoutEnterpriseAE <> []
  /\ getRoutingRecommendation hotEnterprise teamWithoutEnterpriseAE
     = (Returned {| recAssignedTo := None;
                    recReason := "No sales team configured. Please assign manually." |},
        teamWithoutEnterpriseAE).
Proof.
  split; [discriminate|].
  apply (enterprise_lead_told_no_team_configured hotEnterprise
           teamWithoutEnterpriseAE); [reflexivity|].
  exact teamWithoutEnterpriseAE_roles.
Defined.

(** ** The enterprise tier: industry match first, load second *)

Lemma bestEnterpriseAE_find q team :
  find (fun ae => hasIndustryMatch q ae && hasCapacity ae) (enterpriseAEs team)
  = find (fun m => isEnterpriseAE m && (hasIndustryMatch q m && hasCapacity m))
         team.
Proof. unfold enterpriseAEs. apply find_filter. Qed.

(** X4. When some ENTERPRISE_AE lists the lead's industry and has capacity,
    [findBestEnterpriseAE] returns the first such member in team order,
    whatever the loads of the others. *)
Theorem enterprise_tier_prefers_industry_match
  (q : QualificationSchema) (r : LeadRouter) (i : Industry) :
  industry q = Some i ->
  (exists m, In m (salesTeam r) /\ role m = ENTERPRISE_AE
             /\ includesIndustry (industries m) i = true
             /\ hasCapacity m = true) ->
  exists w before after,
    findBestEnterpriseAE q r = (Returned (Some w), r)
    /\ salesTeam r = before ++ w :: after
    /\ role w = ENTERPRISE_AE
    /\ includesIndustry (industries w) i = true
    /\ hasCapacity w = true
    /\ forall m, In m before -> role m = ENTERPRISE_AE ->
         includesIndustry (industries m) i = true -> hasCapacity m = false.
Proof.
  intros Hi (m & Hin & Hrole & Hinc & Hcap).
  rewrite findBestEnterpriseAE_run. unfold bestEnterpriseAE.
  rewrite bestEnterpriseAE_find.
  destruct (find_some_exists
              (fun m => isEnterpriseAE m && (hasIndustryMatch q m && hasCapacity m))
              (salesTeam r)) as (w & Hw).
  { exists m. split; [exact Hin|].
    apply isEnterpriseAE_role in Hrole. unfold hasIndustryMatch.
    now rewrite Hrole, Hi, Hinc, Hcap. }
  rewrite Hw. apply find_first in Hw.
  destruct Hw as (before & after & Heq & Hf & Hbefore).
  unfold hasIndustryMatch in Hf, Hbefore. rewrite Hi in Hf, Hbefore.
  apply andb_true_iff in Hf. destruct Hf as [Hr Hf].
  apply andb_true_iff in Hf. destruct Hf as [Hwi Hwc].
  exists w, before, after. repeat split; auto.
  - now apply isEnterpriseAE_role.
  - intros y Hy Hyr Hyi. specialize (Hbefore y Hy).
    apply isEnterpriseAE_role in Hyr. rewrite Hyr, Hyi in Hbefore.
    exact Hbefore.
Qed.

Lemma enterprise_tier_prefers_industry_match_witness :
  exists w before after,
    findBestEnterpriseAE hotHealthcare leadRouter = (Returned (Some w), leadRouter)
    /\ salesTeam leadRouter = before ++ w :: after
    /\ role w = ENTERPRISE_AE
    /\ includesIndustry (industries w) HEALTHCARE = true
    /\ hasCapacity w = true
    /\ forall m, In m before -> role m = ENTERPRISE_AE ->
         includesIndustry (industries m) HEALTHCARE = true ->
         hasCapacity m = false.
Proof.
  apply (enterprise_tier_prefers_industry_match hotHealthcare leadRouter
           HEALTHCARE); [reflexivity|].
  exists michaelRodriguez. repeat split. right. left. reflexivity.
Defined.

(** X5. When the team has ENTERPRISE_AEs but none of them both lists the
    lead's industry and has capacity, [findBestEnterpriseAE] returns the
    ENTERPRISE_AE of minimum load, the last one on a tie, without looking at
    capacity. *)
Theorem enterprise_tier_fallback_ignores_capacity
  (q : QualificationSchema) (r : LeadRouter) :
  (exists m, In m (salesTeam r) /\ role m = ENTERPRISE_AE) ->
  (forall m, In m (salesTeam r) -> role m = ENTERPRISE_AE ->
     hasIndustryMatch q m && hasCapacity m = false) ->
  exists w, findBestEnterpriseAE q r = (Returned (Some w), r)
            /\ role w = ENTERPRISE_AE
            /\ (forall m, In m (salesTeam r) -> role m = ENTERPRISE_AE ->
                  orZero (currentLeadCount w) <= orZero (currentLeadCount m))
            /\ LastMinimum (filter isEnterpriseAE (salesTeam r)) w.
Proof.
  intros (m0 & Hin0 & Hrole0) Hnone.
  rewrite findBestEnterpriseAE_run. unfold bestEnterpriseAE.
  rewrite find_all_false.
  2:{ intros x Hx. apply enterpriseAEs_spec in Hx. now apply Hnone. }
  assert (Hne : enterpriseAEs (salesTeam r) <> []).
  { intros Hnil. now apply (proj1 (enterpriseAEs_nil_iff _) Hnil m0). }
  destruct (leastBusy_last _ Hne) as (w & -> & Hlast).
  exists w. split; [reflexivity|].
  pose proof (LastMinimum_in _ _ Hlast) as Hw.
  apply enterpriseAEs_spec in Hw.
  split; [tauto|]. split; [|exact Hlast].
  intros m Hm Hr. apply (LastMinimum_least _ _ Hlast).
  now apply enterpriseAEs_spec.
Qed.

Lemma enterprise_tier_fallback_ignores_capacity_witness :
  exists w, findBestEnterpriseAE hotEnterprise teamAtCapacity
              = (Returned (Some w), teamAtCapacity)
            /\ role w = ENTERPRISE_AE
            /\ (forall m, In m (salesTeam teamAtCapacity) ->
                  role m = ENTERPRISE_AE ->
                  orZero (currentLeadCount w) <= orZero (currentLeadCount m))
            /\ LastMinimum (filter isEnterpriseAE (salesTeam teamAtCapacity)) w.
Proof.
  apply (enterprise_tier_fallback_ignores_capacity hotEnterprise teamAtCapacity).
  - exists fullAE1. split; [left|]; reflexivity.
  - cbn. intros m [<- | [<- | []]] _; reflexivity.
Defined.

(** ** The industry-expert and least-busy rules *)

Lemma isHotOrUrgent_false q :
  category q <> HOT_LEAD -> priority q <> URGENT -> isHotOrUrgent q = false.
Proof.
  unfold isHotOrUrgent. intros Hc Hp.
  destruct (category q), (priority q); cbn; congruence.
Qed.

Lemma isEnterpriseSize_false q :
  companySize q <> Some ENTERPRISE -> isEnterpriseSize q = false.
Proof.
  intros H. destruct (isEnterpriseSize q) eqn:E; [|reflexivity].
  now apply isEnterpriseSize_true in E.
Qed.

(** Past the two enterprise rules, the result is the one of the lower
    rules. *)
Lemma routed_lower q team :
  (category q <> HOT_LEAD /\ priority q <> URGENT)
  \/ (forall m, In m team -> role m <> ENTERPRISE_AE) ->
  companySize q <> Some ENTERPRISE ->
  routed q team = lowerRules q team.
Proof.
  intros Hup Hs. unfold routed. destruct team as [|m ms].
  { unfold lowerRules. now destruct (industry q). }
  rewrite (isEnterpriseSize_false q Hs).
  destruct Hup as [[Hc Hp] | Hno].
  - now rewrite (isHotOrUrgent_false q Hc Hp).
  - rewrite (bestEnterpriseAE_none q _ (enterpriseAEs_nil _ Hno)).
    now destruct (isHotOrUrgent q).
Qed.

Lemma industryExpert_none i team :
  industryExpert i team = None <->
  forall m, In m team -> includesIndustry (industries m) i = false.
Proof.
  unfold industryExpert. split.
  - intros H m Hin.
    destruct (includesIndustry (industries m) i) eqn:E; [|reflexivity].
    assert (Hm : In m (filter (fun member => includesIndustry (industries member) i)
                          team)) by (apply filter_In; auto).
    destruct (filter _ team); [destruct Hm | discriminate H].
  - intros H.
    destruct (filter (fun member => includesIndustry (industries member) i) team)
      as [|e es] eqn:E; [reflexivity|].
    assert (He : In e (e :: es)) by now left.
    rewrite <- E in He. apply filter_In in He. destruct He as [Hin He].
    rewrite (H e Hin) in He. discriminate.
Qed.

Lemma industryExpert_some i team w :
  industryExpert i team = Some w ->
  In w team /\ includesIndustry (industries w) i = true
  /\ forall m, In m team -> includesIndustry (industries m) i = true ->
       load w <= load m.
Proof.
  unfold industryExpert. intros H.
  assert (Hne : filter (fun member => includesIndustry (industries member) i) team
                <> []) by (intros E; rewrite E in H; discriminate).
  destruct (leastBusy_last _ Hne) as (w' & Hw' & Hlast).
  rewrite H in Hw'. injection Hw' as <-.
  pose proof (LastMinimum_in _ _ Hlast) as Hin. apply filter_In in Hin.
  split; [tauto|]. split; [tauto|].
  intros m Hm Hi. apply (LastMinimum_least _ _ Hlast). now apply filter_In.
Qed.

(** X6. A lead that gets past the enterprise rules (it is neither HOT_LEAD
    nor URGENT, or the team has no ENTERPRISE_AE; and its companySize is not
    ENTERPRISE) and names an industry that some member lists is given to a
    member that lists the industry, of minimum load among those that do;
    members that do not list it are passed over, however idle. *)
Theorem routeLead_industry_expert
  (q : QualificationSchema) (r : LeadRouter) (i : Industry) :
  (category q <> HOT_LEAD /\ priority q <> URGENT)
  \/ (forall m, In m (salesTeam r) -> role m <> ENTERPRISE_AE) ->
  companySize q <> Some ENTERPRISE ->
  industry q = Some i ->
  (exists m, In m (salesTeam r) /\ includesIndustry (industries m) i = true) ->
  exists w, routeLead q r = (Returned (Some w), r)
            /\ In w (salesTeam r)
            /\ includesIndustry (industries w) i = true
            /\ forall m, In m (salesTeam r) ->
                 includesIndustry (industries m) i = true ->
                 orZero (currentLeadCount w) <= orZero (currentLeadCount m).
Proof.
  intros Hup Hs Hi (m & Hin & Hm).
  rewrite routeLead_run, (routed_lower q _ Hup Hs).
  unfold lowerRules. rewrite Hi.
  destruct (industryExpert i (salesTeam r)) as [w|] eqn:E.
  - exists w. split; [reflexivity|]. now apply industryExpert_some.
  - rewrite (proj1 (industryExpert_none i _) E m Hin) in Hm. discriminate.
Qed.

Lemma routeLead_industry_expert_witness :
  exists w, routeLead coldRetail leadRouter = (Returned (Some w), leadRouter)
            /\ In w (salesTeam leadRouter)
            /\ includesIndustry (industries w) RETAIL = true
            /\ forall m, In m (salesTeam leadRouter) ->
                 includesIndustry (industries m) RETAIL = true ->
                 orZero (currentLeadCount w) <= orZero (currentLeadCount m).
Proof.
  apply (routeLead_industry_expert coldRetail leadRouter RETAIL).
  - left. split; discriminate.
  - discriminate.
  - reflexivity.
  - exists davidKim. split; [right; right; left|]; reflexivity.
Defined.

(** X7. A lead that gets past the enterprise rules and names no industry,
    or an industry that no member lists, is given to the member of minimum
    load in the whole team, the last one on a tie, whatever the roles. *)
Theorem routeLead_default_least_busy
  (q : QualificationSchema) (r : LeadRouter) :
  (category q <> HOT_LEAD /\ priority q <> URGENT)
  \/ (forall m, In m (salesTeam r) -> role m <> ENTERPRISE_AE) ->
  companySize q <> Some ENTERPRISE ->
  (forall i m, industry q = Some i -> In m (salesTeam r) ->
     includesIndustry (industries m) i = false) ->
  salesTeam r <> [] ->
  exists w, routeLead q r = (Returned (Some w), r)
            /\ (forall m, In m (salesTeam r) ->
                  orZero (currentLeadCount w) <= orZero (currentLeadCount m))
            /\ LastMinimum (salesTeam r) w.
Proof.
  intros Hup Hs Hnone Hne.
  rewrite routeLead_run, (routed_lower q _ Hup Hs).
  unfold lowerRules.
  destruct (leastBusy_last _ Hne) as (w & Hw & Hlast).
  exists w. split.
  - destruct (industry q) as [i|]; [|now rewrite Hw].
    rewrite (proj2 (industryExpert_none i _) (fun m => Hnone i m eq_refl)).
    now rewrite Hw.
  - split; [exact (LastMinimum_least _ _ Hlast) | exact Hlast].
Qed.

Lemma routeLead_default_least_busy_witness :
  exists w, routeLead warmNoIndustry leadRouter = (Returned (Some w), leadRouter)
            /\ (forall m, In m (salesTeam leadRouter) ->
                  orZero (currentLeadCount w) <= orZero (currentLeadCount m))
            /\ LastMinimum (salesTeam leadRouter) w.
Proof.
  apply (routeLead_default_least_busy warmNoIndustry leadRouter).
  - left. split; discriminate.
  - discriminate.
  - intros i m H. discriminate H.
  - discriminate.
Defined.

(** ** What the decision depends on *)

(** X8. The routing decision and its reason depend on the classification
    through category, priority, industry and companySize only: leadScore,
    reason, estimatedDealValue, nextSteps and the suggested assignedTo do not
    influence them. *)
Theorem routing_ignores_other_fields
  (q1 q2 : QualificationSchema) (r : LeadRouter) :
  category q1 = category q2 ->
  priority q1 = priority q2 ->
  industry q1 = industry q2 ->
  companySize q1 = companySize q2 ->
  routeLead q1 r = routeLead q2 r
  /\ getRoutingRecommendation q1 r = getRoutingRecommendation q2 r.
Proof.
  intros Hc Hp Hi Hs.
  assert (Hr : routeLead q1 r = routeLead q2 r).
  { rewrite !routeLead_run.
    unfold routed, lowerRules, bestEnterpriseAE, isHotOrUrgent,
      isEnterpriseSize, hasIndustryMatch.
    now rewrite Hc, Hp, Hi, Hs. }
  split; [exact Hr|].
  unfold getRoutingRecommendation, bind. rewrite Hr.
  unfold isEnterpriseSize, hasIndustryMatch.
  now rewrite Hc, Hi, Hs.
Qed.

Lemma routing_ignores_other_fields_witness :
  routeLead coldRetail leadRouter = routeLead coldRetailRescored leadRouter
  /\ getRoutingRecommendation coldRetail leadRouter
     = getRoutingRecommendation coldRetailRescored leadRouter.
Proof.
  apply (routing_ignores_other_fields coldRetail coldRetailRescored leadRouter);
    reflexivity.
Defined.

(** ** When the reason does name the rule *)

(** X9. For a lead that is neither HOT_LEAD nor URGENT, the reason of the
    recommendation is the explanation of the rule that assigned the
    worker. *)
Theorem reason_names_rule_when_not_hot_nor_urgent
  (q : QualificationSchema) (r : LeadRouter) (rule : Rule) (w : SalesTeamMember) :
  category q <> HOT_LEAD ->
  priority q <> URGENT ->
  routeLeadLabelled q r = (Returned (Some (rule, w)), r) ->
  getRoutingRecommendation q r
  = (Returned {| recAssignedTo := Some w;
                 recReason := ("Assigned to " +++ memberName w +++ " ("
                                 +++ roleText (role w) +++ ")")
                                +++ explanation rule q |},
     r).
Proof.
  intros Hc Hp.
  assert (Hhot : QualificationCategory_beq (category q) HOT_LEAD = false)
    by (destruct (category q); cbn; congruence).
  unfold getRoutingRecommendation, routeLeadLabelled, label, bind, gets.
  rewrite routeLead_run. unfold routed, lowerRules.
  rewrite length_zero_nil, (isHotOrUrgent_false q Hc Hp), Hhot.
  destruct (salesTeam r) as [|m ms] eqn:E; [discriminate|].
  unfold ret at 1. cbv beta iota.
  destruct (isEnterpriseSize q) eqn:Hs.
  - rewrite findBestEnterpriseAE_run, E.
    destruct (bestEnterpriseAE q (m :: ms)) as [ae|]; [|discriminate].
    intros [= <- <-]. reflexivity.
  - unfold hasIndustryMatch, explanation.
    destruct (industry q) as [i|].
    + rewrite findIndustryExpert_run, E.
      destruct (industryExpert i (m :: ms)) as [e|] eqn:Ex.
      * intros [= <- <-].
        destruct (industryExpert_some i _ _ Ex) as (_ & -> & _). reflexivity.
      * rewrite findLeastBusyRep_default, E.
        destruct (leastBusy (m :: ms)) as [b|] eqn:B; [|discriminate].
        intros [= <- <-].
        rewrite (proj1 (industryExpert_none i _) Ex b (leastBusy_in _ _ B)).
        reflexivity.
    + unfold ret at 1. cbv beta iota.
      rewrite findLeastBusyRep_default, E.
      destruct (leastBusy (m :: ms)) as [b|]; [|discriminate].
      intros [= <- <-]. reflexivity.
Qed.

Lemma reason_names_rule_when_not_hot_nor_urgent_witness :
  getRoutingRecommendation coldRetail leadRouter
  = (Returned {| recAssignedTo := Some davidKim;
                 recReason := ("Assigned to " +++ memberName davidKim +++ " ("
                                 +++ roleText (role davidKim) +++ ")")
                                +++ explanation IndustryExpertRule coldRetail |},
     leadRouter).
Proof.
  apply (reason_names_rule_when_not_hot_nor_urgent coldRetail leadRouter
           IndustryExpertRule davidKim); [discriminate | discriminate |].
  reflexivity.
Defined.

(** * Further properties of the inbound workflow *)

(** ** What [qualify] changes *)

(** X10. [qualify] returns the classifier's answer with at most assignedTo
    changed: when the router finds no one the classifier's own suggestion is
    kept, and when it returns a worker the suggestion is replaced by the
    worker's name, email and the routing reason. *)
Theorem qualify_overwrites_assignedTo_only
  (ext : Collaborators) (lead : FormSchema) (research : string)
  (enrichment : LeadEnrichmentSchema) (object : QualificationSchema) (w : World) :
  generateQualification ext lead research enrichment = Some object ->
  exists q routing,
    fst (qualify ext lead research enrichment w) = Returned q
    /\ getRoutingRecommendation object (router w) = (Returned routing, router w)
    /\ category q = category object
    /\ priority q = priority object
    /\ leadScore q = leadScore object
    /\ reason q = reason object
    /\ industry q = industry object
    /\ companySize q = companySize object
    /\ estimatedDealValue q = estimatedDealValue object
    /\ nextSteps q = nextSteps object
    /\ assignedTo q
       = match recAssignedTo routing with
         | Some m => Some (memberName m +++ " (" +++ memberEmail m +++ ") - "
                             +++ recReason routing)
         | None => assignedTo object
         end.
Proof.
  intros Hq. rewrite (qualify_run _ _ _ _ _ w Hq). cbn [fst].
  destruct (getRoutingRecommendation_frame object (router w))
    as (routing & Hrec & _).
  exists (routedQualification object (router w)), routing.
  split; [reflexivity|]. split; [exact Hrec|].
  unfold routedQualification. rewrite Hrec. cbn [fst].
  destruct (recAssignedTo routing); repeat split.
Qed.

Lemma qualify_overwrites_assignedTo_only_witness :
  exists q routing,
    fst (qualify (answering coldRetailRescored) inquiry "research report"
           {| companyName := None; companyWebsite := None;
              companyDescription := None; enrCompanySize := None;
              enrIndustry := None; foundedYear := None; headquarters := None;
              revenue := None; fundingInfo := None; techStack := None;
              socialProfiles := None; recentNews := None;
              competitors := None |} startOfRun) = Returned q
    /\ getRoutingRecommendation coldRetailRescored (router startOfRun)
       = (Returned routing, router startOfRun)
    /\ category q = category coldRetailRescored
    /\ priority q = priority coldRetailRescored
    /\ leadScore q = leadScore coldRetailRescored
    /\ reason q = reason coldRetailRescored
    /\ industry q = industry coldRetailRescored
    /\ companySize q = companySize coldRetailRescored
    /\ estimatedDealValue q = estimatedDealValue coldRetailRescored
    /\ nextSteps q = nextSteps coldRetailRescored
    /\ assignedTo q
       = match recAssignedTo routing with
         | Some m => Some (memberName m +++ " (" +++ memberEmail m +++ ") - "
                             +++ recReason routing)
         | None => assignedTo coldRetailRescored
         end.
Proof.
  apply (qualify_overwrites_assignedTo_only (answering coldRetailRescored)).
  reflexivity.
Defined.

(** ** Entering the branch on the category *)

Lemma getEmailTemplateType_routed object r :
  getEmailTemplateType (routedQualification object r)
  = getEmailTemplateType object.
Proof.
  unfold getEmailTemplateType. now rewrite routedQualification_category.
Qed.

Lemma router_logged w cs : router (logged w cs) = router w.
Proof. reflexivity. Qed.

Ltac enter_branch Hres Henr Hq :=
  unfold workflowInbound, stepResearch, stepEnrichment, enrichLead,
    stepQualify, bind;
  rewrite Hres, await_resolves, Henr, await_resolves;
  rewrite (qualify_run _ _ _ _ _ _ Hq);
  rewrite routedQualification_category, ?logged_logged, ?router_logged;
  unfold stepWriteEmail, writeEmail;
  rewrite ?getEmailTemplateType_routed.

Lemma stepHumanFeedback_run ext data research emailText q enrichment w :
  (slackConfigured ext = true ->
   sendSlackMessageWithButtons ext data research emailText q enrichment <> None) ->
  exists handle,
    stepHumanFeedback ext data research emailText q enrichment w
    = (Returned handle,
       logged w (CallStepHumanFeedback
                   :: if slackConfigured ext then [CallSendSlackMessage] else [])).
Proof.
  unfold stepHumanFeedback, slackConfigured, humanFeedback, bind.
  rewrite record_run. intros Hslack.
  destruct (SLACK_BOT_TOKEN ext), (SLACK_SIGNING_SECRET ext); cbn [negb orb andb];
    try (eexists; reflexivity).
  destruct (sendSlackMessageWithButtons ext data research emailText q enrichment)
    as [handle|]; [|now destruct Hslack].
  rewrite await_resolves, logged_logged. eexists. reflexivity.
Qed.

(** ** Runs that reach the approval step *)

(** X11. For a lead classified HOT_LEAD, QUALIFIED, WARM_LEAD, FOLLOW_UP or
    PARTNER, when the collaborators answer, the run makes, in this order,
    the research, enrichment and classification calls, one consultation of
    the router, one email with the template of the category, one follow-up
    sequence and the approval step, which sends the Slack message exactly
    when both Slack variables are set; it then returns the summary without
    waiting for a decision. *)
Theorem outreach_run
  (ext : Collaborators) (data : FormSchema) (w : World)
  (research : string) (enrichment : LeadEnrichmentSchema)
  (object : QualificationSchema) (emailText : string) (followUps : list string) :
  researchAgentGenerate ext data = Some research ->
  generateEnrichment ext data research = Some enrichment ->
  generateQualification ext data research enrichment = Some object ->
  In (category object) [HOT_LEAD; QUALIFIED; WARM_LEAD; FOLLOW_UP; PARTNER] ->
  generateEmailText ext data research (routedQualification object (router w))
    enrichment (getEmailTemplateType object) = Some emailText ->
  generateFollowUpEmails ext data (routedQualification object (router w))
    enrichment [emailText] = Some followUps ->
  (slackConfigured ext = true ->
   sendSlackMessageWithButtons ext data research emailText
     (routedQualification object (router w)) enrichment <> None) ->
  workflowInbound ext data w
  = (Returned (summaryOf data (routedQualification object (router w))),
     logged w ([CallResearchAgent; CallEnrichLead; CallGenerateQualification;
                CallGetRoutingRecommendation object;
                CallWriteEmail (getEmailTemplateType object);
                CallGenerateFollowUpSequence; CallStepHumanFeedback]
               ++ if slackConfigured ext then [CallSendSlackMessage] else [])).
Proof.
  intros Hres Henr Hq Hcat Hmail Hfollow Hslack.
  enter_branch Hres Henr Hq.
  destruct (stepHumanFeedback_run ext data research emailText
              (routedQualification object (router w)) enrichment
              (logged w [CallResearchAgent; CallEnrichLead;
                         CallGenerateQualification;
                         CallGetRoutingRecommendation object;
                         CallWriteEmail (getEmailTemplateType object);
                         CallGenerateFollowUpSequence]) Hslack)
    as (handle & Hstep).
  cbn in Hcat.
  destruct Hcat as [Hc | [Hc | [Hc | [Hc | [Hc | []]]]]]; rewrite <- Hc;
    rewrite Hmail, await_resolves;
    unfold stepGenerateFollowUpSequence, generateFollowUpSequence;
    rewrite Hfollow, await_resolves, ?logged_logged;
    cbn [app]; rewrite Hstep; unfold ret; rewrite ?logged_logged; reflexivity.
Qed.

Lemma outreach_run_witness :
  workflowInbound (answering hotMidMarket) inquiry startOfRun
  = (Returned (summaryOf inquiry (routedQualification hotMidMarket leadRouter)),
     logged startOfRun
       [CallResearchAgent; CallEnrichLead; CallGenerateQualification;
        CallGetRoutingRecommendation hotMidMarket;
        CallWriteEmail HOT_LEAD_RESPONSE;
        CallGenerateFollowUpSequence; CallStepHumanFeedback;
        CallSendSlackMessage]).
Proof.
  refine (outreach_run (answering hotMidMarket) inquiry startOfRun _ _
            hotMidMarket "Subject: hello" [] _ _ _ _ _ _ _);
    try reflexivity.
  - left. reflexivity.
  - discriminate.
Defined.

(** X12. For a lead classified SUPPORT, when the collaborators answer, the
    run writes one email with the SUPPORT_REDIRECT template and goes
    through the approval step, without generating a follow-up sequence. *)
Theorem support_run
  (ext : Collaborators) (data : FormSchema) (w : World)
  (research : string) (enrichment : LeadEnrichmentSchema)
  (object : QualificationSchema) (emailText : string) :
  researchAgentGenerate ext data = Some research ->
  generateEnrichment ext data research = Some enrichment ->
  generateQualification ext data research enrichment = Some object ->
  category object = SUPPORT ->
  generateEmailText ext data research (routedQualification object (router w))
    enrichment SUPPORT_REDIRECT = Some emailText ->
  (slackConfigured ext = true ->
   sendSlackMessageWithButtons ext data research emailText
     (routedQualification object (router w)) enrichment <> None) ->
  workflowInbound ext data w
  = (Returned (summaryOf data (routedQualification object (router w))),
     logged w ([CallResearchAgent; CallEnrichLead; CallGenerateQualification;
                CallGetRoutingRecommendation object;
                CallWriteEmail SUPPORT_REDIRECT; CallStepHumanFeedback]
               ++ if slackConfigured ext then [CallSendSlackMessage] else [])).
Proof.
  intros Hres Henr Hq Hcat Hmail Hslack.
  enter_branch Hres Henr Hq.
  destruct (stepHumanFeedback_run ext data research emailText
              (routedQualification object (router w)) enrichment
              (logged w [CallResearchAgent; CallEnrichLead;
                         CallGenerateQualification;
                         CallGetRoutingRecommendation object;
                         CallWriteEmail SUPPORT_REDIRECT]) Hslack)
    as (handle & Hstep).
  unfold getEmailTemplateType. rewrite Hcat.
  rewrite Hmail, await_resolves, ?logged_logged.
  cbn [app]. rewrite Hstep. unfold ret. rewrite ?logged_logged. reflexivity.
Qed.

Lemma support_run_witness :
  workflowInbound (answeringWithoutSlack supportRequest) inquiry startOfRun
  = (Returned (summaryOf inquiry (routedQualification supportRequest leadRouter)),
     logged startOfRun
       [CallResearchAgent; CallEnrichLead; CallGenerateQualification;
        CallGetRoutingRecommendation supportRequest;
        CallWriteEmail SUPPORT_REDIRECT; CallStepHumanFeedback]).
Proof.
  refine (support_run (answeringWithoutSlack supportRequest) inquiry startOfRun
            _ _ supportRequest "Subject: hello" _ _ _ _ _ _);
    try reflexivity.
  discriminate.
Defined.

(** ** What any run adds to the log *)

Lemma logged_nil w : logged w [] = w.
Proof. destruct w. unfold logged. cbn. now rewrite app_nil_r. Qed.

Lemma emits_ret {A} P (a : A) : emits P (ret a).
Proof. intros w. exists []. split; [now rewrite logged_nil | constructor]. Qed.

Lemma emits_throw {A} P e : emits P (@throw World A e).
Proof. intros w. exists []. split; [now rewrite logged_nil | constructor]. Qed.

Lemma emits_bind {A B} P (c : Run World A) (k : A -> Run World B) :
  emits P c -> (forall a, emits P (k a)) -> emits P (bind c k).
Proof.
  intros Hc Hk w. unfold bind.
  destruct (Hc w) as (cs & Hw & Hcs).
  destruct (c w) as [[a | e] w'] eqn:E; cbn [snd] in Hw; subst w'.
  - destruct (Hk a (logged w cs)) as (cs' & Hw' & Hcs').
    exists (cs ++ cs'). rewrite Hw', logged_logged.
    split; [reflexivity | now apply Forall_app].
  - exists cs. split; [reflexivity | exact Hcs].
Qed.

Lemma emits_tryCatch {A} P (c : Run World A) (h : string -> Run World A) :
  emits P c -> (forall e, emits P (h e)) -> emits P (tryCatch c h).
Proof.
  intros Hc Hh w. unfold tryCatch.
  destruct (Hc w) as (cs & Hw & Hcs).
  destruct (c w) as [[a | e] w'] eqn:E; cbn [snd] in Hw; subst w'.
  - exists cs. split; [reflexivity | exact Hcs].
  - destruct (Hh e (logged w cs)) as (cs' & Hw' & Hcs').
    exists (cs ++ cs'). rewrite Hw', logged_logged.
    split; [reflexivity | now apply Forall_app].
Qed.

Lemma emits_record (P : Call -> Prop) c : P c -> emits P (record c).
Proof.
  intros Hc w. exists [c]. split; [reflexivity | now repeat constructor].
Qed.

Lemma emits_await {A} (P : Call -> Prop) c (answer : option A) :
  P c -> emits P (await c answer).
Proof.
  intros Hc. unfold await. apply emits_bind; [now apply emits_record|].
  intros _. destruct answer; [apply emits_ret | apply emits_throw].
Qed.

Lemma emits_onRouter {A} P (c : Run LeadRouter A) :
  (forall r, snd (c r) = r) -> emits P (onRouter c).
Proof.
  intros Hc w. exists []. rewrite logged_nil. split; [|constructor].
  unfold onRouter. specialize (Hc (router w)).
  destruct (c (router w)) as [o r']. cbn [snd] in *. subst r'. now destruct w.
Qed.

Lemma emits_qualify P ext lead research enrichment :
  P CallGenerateQualification ->
  (forall q, P (CallGetRoutingRecommendation q)) ->
  emits P (qualify ext lead research enrichment).
Proof.
  intros Hg Hr. unfold qualify.
  apply emits_bind; [now apply emits_await|]. intros object.
  apply emits_tryCatch; [|intros _; apply emits_ret].
  apply emits_bind; [now apply emits_record|]. intros _.
  apply emits_bind.
  - apply emits_onRouter. intros r.
    destruct (getRoutingRecommendation_frame object r) as (rec & -> & _).
    reflexivity.
  - intros routing. destruct (recAssignedTo routing); apply emits_ret.
Qed.

Lemma emits_stepHumanFeedback P ext data research emailText q enrichment :
  P CallStepHumanFeedback ->
  (slackConfigured ext = true -> P CallSendSlackMessage) ->
  emits P (stepHumanFeedback ext data research emailText q enrichment).
Proof.
  intros Hs Hm. unfold stepHumanFeedback, slackConfigured in *.
  apply emits_bind; [now apply emits_record|]. intros _.
  destruct (SLACK_BOT_TOKEN ext), (SLACK_SIGNING_SECRET ext); cbn [negb orb];
    try apply emits_ret.
  apply emits_bind; [|intros a; apply emits_ret].
  unfold humanFeedback. apply emits_await. now apply Hm.
Qed.

Lemma emits_workflowInbound (P : Call -> Prop) ext data :
  P CallResearchAgent -> P CallEnrichLead -> P CallGenerateQualification ->
  (forall q, P (CallGetRoutingRecommendation q)) ->
  (forall t, P (CallWriteEmail t)) ->
  P CallGenerateFollowUpSequence -> P CallStepHumanFeedback ->
  (slackConfigured ext = true -> P CallSendSlackMessage) ->
  emits P (workflowInbound ext data).
Proof.
  intros Hra Hel Hgq Hrr Hwe Hfu Hhf Hsm. unfold workflowInbound.
  apply emits_bind; [now apply emits_await|]. intros research.
  apply emits_bind; [now apply emits_await|]. intros enrichment.
  apply emits_bind; [now apply emits_qualify|]. intros q.
  apply emits_bind; [|intros _; apply emits_ret].
  assert (Hmail : emits P (stepWriteEmail ext data research q enrichment))
    by (apply emits_await, Hwe).
  assert (Hstep : forall e, emits P (stepHumanFeedback ext data research e q
                                       enrichment))
    by (intros e; now apply emits_stepHumanFeedback).
  assert (Hfollow : forall e, emits P (stepGenerateFollowUpSequence ext data q
                                         enrichment e))
    by (intros e; now apply emits_await).
  destruct (category q);
    repeat first [ apply emits_ret
                 | apply emits_bind; [solve [auto] | intros ?] ].
Qed.

Lemma no_slack_free ext data w :
  SLACK_BOT_TOKEN ext = false \/ SLACK_SIGNING_SECRET ext = false ->
  exists new,
    snd (workflowInbound ext data w) = logged w new
    /\ ~ In CallSendSlackMessage new.
Proof.
  intros Hoff.
  destruct (emits_workflowInbound (fun c => c <> CallSendSlackMessage) ext data)
    with (w := w) as (cs & Hw & Hcs); try discriminate.
  { unfold slackConfigured. destruct Hoff as [-> | ->];
      [|rewrite andb_false_r]; discriminate. }
  exists cs. split; [exact Hw|].
  intros Hin. rewrite Forall_forall in Hcs. now apply (Hcs _ Hin).
Qed.

(** X13. When SLACK_BOT_TOKEN or SLACK_SIGNING_SECRET is not set, no run of
    the inbound workflow sends a Slack message, whatever the lead and
    whatever the collaborators answer. *)
Theorem no_slack_message_without_configuration
  (ext : Collaborators) (data : FormSchema) (w : World) :
  SLACK_BOT_TOKEN ext = false \/ SLACK_SIGNING_SECRET ext = false ->
  exists new,
    calls (snd (workflowInbound ext data w)) = calls w ++ new
    /\ ~ In CallSendSlackMessage new.
Proof.
  intros Hoff. destruct (no_slack_free ext data w Hoff) as (cs & Hw & Hcs).
  exists cs. rewrite Hw. split; [reflexivity | exact Hcs].
Qed.

Lemma no_slack_message_without_configuration_witness :
  exists new,
    calls (snd (workflowInbound (answeringWithoutSlack hotMidMarket) inquiry
                  startOfRun))
      = calls startOfRun ++ new
    /\ ~ In CallSendSlackMessage new.
Proof.
  apply (no_slack_message_without_configuration
           (answeringWithoutSlack hotMidMarket) inquiry startOfRun).
  right. reflexivity.
Defined.

(** X14. A run of the inbound workflow never changes the sales team: the
    router after the run is the router before it, whatever the lead and
    whatever the collaborators answer, and the log of calls only grows. *)
Theorem workflowInbound_leaves_router_unchanged
  (ext : Collaborators) (data : FormSchema) (w : World) :
  router (snd (workflowInbound ext data w)) = router w
  /\ exists new, calls (snd (workflowInbound ext data w)) = calls w ++ new.
Proof.
  destruct (emits_workflowInbound (fun _ => True) ext data)
    with (w := w) as (cs & Hw & _); auto.
  rewrite Hw. split; [reflexivity | now exists cs].
Qed.

(** ** Runs in which a collaborator rejects *)

Lemma workflowInbound_research_rejects ext data w :
  researchAgentGenerate ext data = None ->
  workflowInbound ext data w = (Threw "rejected", logged w [CallResearchAgent]).
Proof.
  intros H. unfold workflowInbound, stepResearch, bind.
  now rewrite H, await_rejects.
Qed.

Lemma workflowInbound_enrichment_rejects ext data w research :
  researchAgentGenerate ext data = Some research ->
  generateEnrichment ext data research = None ->
  workflowInbound ext data w
  = (Threw "rejected", logged w [CallResearchAgent; CallEnrichLead]).
Proof.
  intros Hres H.
  unfold workflowInbound, stepResearch, stepEnrichment, enrichLead, bind.
  now rewrite Hres, await_resolves, H, await_rejects, logged_logged.
Qed.

Lemma workflowInbound_classifier_rejects ext data w research enrichment :
  researchAgentGenerate ext data = Some research ->
  generateEnrichment ext data research = Some enrichment ->
  generateQualification ext data research enrichment = None ->
  workflowInbound ext data w
  = (Threw "rejected",
     logged w [CallResearchAgent; CallEnrichLead; CallGenerateQualification]).
Proof.
  intros Hres Henr H.
  unfold workflowInbound, stepResearch, stepEnrichment, enrichLead,
    stepQualify, qualify, bind.
  now rewrite Hres, await_resolves, Henr, await_resolves, H, await_rejects,
    !logged_logged.
Qed.

Lemma workflowInbound_email_rejects ext data w research enrichment object :
  researchAgentGenerate ext data = Some research ->
  generateEnrichment ext data research = Some enrichment ->
  generateQualification ext data research enrichment = Some object ->
  generateEmailText ext data research (routedQualification object (router w))
    enrichment (getEmailTemplateType object) = None ->
  workflowInbound ext data w
  = (Threw "rejected",
     logged w [CallResearchAgent; CallEnrichLead; CallGenerateQualification;
               CallGetRoutingRecommendation object;
               CallWriteEmail (getEmailTemplateType object)]).
Proof.
  intros Hres Henr Hq Hmail.
  enter_branch Hres Henr Hq.
  destruct (category object) eqn:Hc;
    rewrite Hmail, await_rejects, ?logged_logged; reflexivity.
Qed.

Lemma workflowInbound_followUps_reject
  ext data w research enrichment object emailText :
  researchAgentGenerate ext data = Some research ->
  generateEnrichment ext data research = Some enrichment ->
  generateQualification ext data research enrichment = Some object ->
  In (category object) [HOT_LEAD; QUALIFIED; WARM_LEAD; FOLLOW_UP; PARTNER] ->
  generateEmailText ext data research (routedQualification object (router w))
    enrichment (getEmailTemplateType object) = Some emailText ->
  generateFollowUpEmails ext data (routedQualification object (router w))
    enrichment [emailText] = None ->
  workflowInbound ext data w
  = (Threw "rejected",
     logged w [CallResearchAgent; CallEnrichLead; CallGenerateQualification;
               CallGetRoutingRecommendation object;
               CallWriteEmail (getEmailTemplateType object);
               CallGenerateFollowUpSequence]).
Proof.
  intros Hres Henr Hq Hcat Hmail Hfollow.
  enter_branch Hres Henr Hq.
  unfold stepGenerateFollowUpSequence, generateFollowUpSequence.
  cbn in Hcat.
  destruct Hcat as [Hc | [Hc | [Hc | [Hc | [Hc | []]]]]]; rewrite <- Hc;
    rewrite Hmail, await_resolves, Hfollow, await_rejects, ?logged_logged;
    reflexivity.
Qed.

(** X15. A rejection during research, enrichment or classification fails
    the run at that call: nothing is called after it, in particular the
    router is not consulted and no email is written. *)
Theorem rejection_before_the_branch_fails_the_run
  (ext : Collaborators) (data : FormSchema) (w : World) :
  (researchAgentGenerate ext data = None ->
   workflowInbound ext data w
   = (Threw "rejected", logged w [CallResearchAgent]))
  /\ (forall research,
        researchAgentGenerate ext data = Some research ->
        generateEnrichment ext data research = None ->
        workflowInbound ext data w
        = (Threw "rejected", logged w [CallResearchAgent; CallEnrichLead]))
  /\ (forall research enrichment,
        researchAgentGenerate ext data = Some research ->
        generateEnrichment ext data research = Some enrichment ->
        generateQualification ext data research enrichment = None ->
        workflowInbound ext data w
        = (Threw "rejected",
           logged w [CallResearchAgent; CallEnrichLead;
                     CallGenerateQualification])).
Proof.
  split; [apply workflowInbound_research_rejects|].
  split; [apply workflowInbound_enrichment_rejects|].
  apply workflowInbound_classifier_rejects.
Qed.

Lemma rejection_before_the_branch_fails_the_run_witness :
  workflowInbound classifierDown inquiry startOfRun
  = (Threw "rejected",
     logged startOfRun
       [CallResearchAgent; CallEnrichLead; CallGenerateQualification]).
Proof.
  refine (proj2 (proj2 (rejection_before_the_branch_fails_the_run
                          classifierDown inquiry startOfRun)) _ _ _ _ _);
    reflexivity.
Defined.

(** X16. When the email generation rejects, the run fails at that call for
    every category, and when the follow-up generation rejects, the run of a
    HOT_LEAD, QUALIFIED, WARM_LEAD, FOLLOW_UP or PARTNER lead fails at that
    call: in both cases the approval step is not reached. *)
Theorem rejection_in_the_branch_skips_approval
  (ext : Collaborators) (data : FormSchema) (w : World)
  (research : string) (enrichment : LeadEnrichmentSchema)
  (object : QualificationSchema) :
  researchAgentGenerate ext data = Some research ->
  generateEnrichment ext data research = Some enrichment ->
  generateQualification ext data research enrichment = Some object ->
  (generateEmailText ext data research (routedQualification object (router w))
     enrichment (getEmailTemplateType object) = None ->
   workflowInbound ext data w
   = (Threw "rejected",
      logged w [CallResearchAgent; CallEnrichLead; CallGenerateQualification;
                CallGetRoutingRecommendation object;
                CallWriteEmail (getEmailTemplateType object)]))
  /\ (forall emailText,
        In (category object) [HOT_LEAD; QUALIFIED; WARM_LEAD; FOLLOW_UP; PARTNER] ->
        generateEmailText ext data research
          (routedQualification object (router w)) enrichment
          (getEmailTemplateType object) = Some emailText ->
        generateFollowUpEmails ext data (routedQualification object (router w))
          enrichment [emailText] = None ->
        workflowInbound ext data w
        = (Threw "rejected",
           logged w [CallResearchAgent; CallEnrichLead;
                     CallGenerateQualification;
                     CallGetRoutingRecommendation object;
                     CallWriteEmail (getEmailTemplateType object);
                     CallGenerateFollowUpSequence])).
Proof.
  intros Hres Henr Hq. split.
  - now apply workflowInbound_email_rejects.
  - intros emailText. now apply workflowInbound_followUps_reject.
Qed.

Lemma rejection_in_the_branch_skips_approval_witness :
  workflowInbound (writerDown hotMidMarket) inquiry startOfRun
  = (Threw "rejected",
     logged startOfRun
       [CallResearchAgent; CallEnrichLead; CallGenerateQualification;
        CallGetRoutingRecommendation hotMidMarket;
        CallWriteEmail HOT_LEAD_RESPONSE]).
Proof.
  refine (proj1 (rejection_in_the_branch_skips_approval
                   (writerDown hotMidMarket) inquiry startOfRun
                   _ _ hotMidMarket _ _ _) _); reflexivity.
Defined.

(** ** When a Slack message is sent *)

(** X17. A run of the inbound workflow sends a Slack message only if both
    Slack variables are set, research, enrichment and classification
    answered, the category is neither COLD_LEAD nor UNQUALIFIED, and the
    email was generated. *)
Theorem slack_message_only_for_reviewed_leads
  (ext : Collaborators) (data : FormSchema) (w : World) (new : list Call) :
  calls (snd (workflowInbound ext data w)) = calls w ++ new ->
  In CallSendSlackMessage new ->
  SLACK_BOT_TOKEN ext = true /\ SLACK_SIGNING_SECRET ext = true
  /\ exists research enrichment object emailText,
       researchAgentGenerate ext data = Some research
       /\ generateEnrichment ext data research = Some enrichment
       /\ generateQualification ext data research enrichment = Some object
       /\ category object <> COLD_LEAD
       /\ category object <> UNQUALIFIED
       /\ generateEmailText ext data research
            (routedQualification object (router w)) enrichment
            (getEmailTemplateType object) = Some emailText.
Proof.
  intros Hcalls Hin.
  assert (Hno : forall cs, ~ In CallSendSlackMessage cs ->
                  snd (workflowInbound ext data w) = logged w cs -> False).
  { intros cs Hcs Hw. rewrite Hw in Hcalls. cbn in Hcalls.
    apply app_inv_head in Hcalls. subst cs. now apply Hcs. }
  assert (Hlist : forall cs, forallb (fun c => match c with
                                               | CallSendSlackMessage => false
                                               | _ => true
                                               end) cs = true ->
                    ~ In CallSendSlackMessage cs).
  { intros cs Hall Hc. rewrite forallb_forall in Hall.
    now specialize (Hall _ Hc). }
  destruct (SLACK_BOT_TOKEN ext) eqn:Htok.
  2:{ destruct (no_slack_free ext data w (or_introl Htok)) as (cs & Hw & Hcs).
      exfalso. rewrite Hw in Hcalls. apply app_inv_head in Hcalls.
      subst cs. now apply Hcs. }
  destruct (SLACK_SIGNING_SECRET ext) eqn:Hsec.
  2:{ destruct (no_slack_free ext data w (or_intror Hsec)) as (cs & Hw & Hcs).
      exfalso. rewrite Hw in Hcalls. apply app_inv_head in Hcalls.
      subst cs. now apply Hcs. }
  split; [reflexivity|]. split; [reflexivity|].
  destruct (researchAgentGenerate ext data) as [research|] eqn:Hres.
  2:{ exfalso. eapply Hno;
        [|rewrite (workflowInbound_research_rejects _ _ _ Hres); reflexivity].
      now apply Hlist. }
  destruct (generateEnrichment ext data research) as [enrichment|] eqn:Henr.
  2:{ exfalso. eapply Hno;
        [|rewrite (workflowInbound_enrichment_rejects _ _ _ _ Hres Henr);
          reflexivity].
      now apply Hlist. }
  destruct (generateQualification ext data research enrichment)
    as [object|] eqn:Hq.
  2:{ exfalso. eapply Hno;
        [|rewrite (workflowInbound_classifier_rejects _ _ _ _ _ Hres Henr Hq);
          reflexivity].
      now apply Hlist. }
  destruct (generateEmailText ext data research
              (routedQualification object (router w)) enrichment
              (getEmailTemplateType object)) as [emailText|] eqn:Hmail.
  2:{ exfalso. eapply Hno;
        [|rewrite (workflowInbound_email_rejects _ _ _ _ _ _ Hres Henr Hq Hmail);
          reflexivity].
      now apply Hlist. }
  exists research, enrichment, object, emailText.
  repeat split; auto; intros Hc; eapply Hno;
    try (rewrite (workflowInbound_unreviewed _ _ w _ _ _ Hres Henr Hq);
         [reflexivity | auto]);
    now apply Hlist.
Qed.

(** * Properties of the outbound workflow *)

Lemma awaitCall_resolves {A} c (a : A) cs :
  Outbound.awaitCall c (Some a) cs = (Returned a, cs ++ [c]).
Proof. reflexivity. Qed.

Lemma awaitCall_rejects {A} c cs :
  Outbound.awaitCall c (@None A) cs = (Threw "rejected", cs ++ [c]).
Proof. reflexivity. Qed.

(** X18. When the qualifier answers that the prospect should not be reached
    out to, the outbound run returns the unqualified result with the
    qualifier's reason after the research and qualification calls only: no
    email, no sequence and no review, whatever the score and the ICP fit. *)
Theorem outbound_declined_prospect
  (ext : Outbound.Services) (prospect : Outbound.OutboundProspect)
  (cs : list Outbound.Call) (research : string)
  (q : Outbound.ProspectQualification) :
  Outbound.researchAgentGenerate ext prospect = Some research ->
  Outbound.generateProspectQualification ext prospect research = Some q ->
  Outbound.shouldReachOut q = false ->
  Outbound.workflowOutbound ext prospect cs
  = (Returned (Outbound.NotQualified (Outbound.name prospect)
                 (Outbound.company prospect) (Outbound.reason q)),
     cs ++ [Outbound.CallResearchProspect; Outbound.CallQualifyProspect]).
Proof.
  intros Hres Hq Hno.
  unfold Outbound.workflowOutbound, Outbound.stepResearchProspect,
    Outbound.stepQualifyProspect, bind.
  rewrite Hres, awaitCall_resolves, Hq, awaitCall_resolves, Hno.
  unfold ret. now rewrite <- app_assoc.
Qed.

Lemma outbound_declined_prospect_witness :
  Outbound.workflowOutbound (outboundAnswering (highScore false)) prospectKay []
  = (Returned (Outbound.NotQualified "Kay Osei" "Acme" "excellent fit"),
     [Outbound.CallResearchProspect; Outbound.CallQualifyProspect]).
Proof.
  apply (outbound_declined_prospect (outboundAnswering (highScore false))
           prospectKay [] "prospect research" (highScore false));
    reflexivity.
Defined.

(** X19. When the qualifier answers that the prospect should be reached out
    to and the services answer, the outbound run generates the email and
    the sequence, goes through the review step, which sends the Slack
    message exactly when both Slack variables are set, and returns the
    qualified result, whose sequenceLength is the number of touch points of
    the generated sequence. *)
Theorem outbound_qualified_prospect
  (ext : Outbound.Services) (prospect : Outbound.OutboundProspect)
  (cs : list Outbound.Call) (research : string)
  (q : Outbound.ProspectQualification) (initialEmail : string)
  (sequence : Outbound.MultiTouchSequence) :
  Outbound.researchAgentGenerate ext prospect = Some research ->
  Outbound.generateProspectQualification ext prospect research = Some q ->
  Outbound.shouldReachOut q = true ->
  Outbound.generateEmailText ext prospect research q = Some initialEmail ->
  Outbound.generateSequence ext prospect research q initialEmail = Some sequence ->
  (Outbound.SLACK_BOT_TOKEN ext && Outbound.SLACK_SIGNING_SECRET ext = true ->
   Outbound.sendSlackMessageWithButtons ext prospect research q sequence
   <> None) ->
  Outbound.workflowOutbound ext prospect cs
  = (Returned (Outbound.Qualified (Outbound.name prospect)
                 (Outbound.company prospect) (Outbound.score q)
                 (Z.of_nat (List.length (Outbound.touchPoints sequence)))
                 (Outbound.estimatedDealValue q)),
     cs ++ [Outbound.CallResearchProspect; Outbound.CallQualifyProspect;
            Outbound.CallGenerateOutboundEmail;
            Outbound.CallGenerateMultiTouchSequence;
            Outbound.CallReviewOutbound]
        ++ if Outbound.SLACK_BOT_TOKEN ext && Outbound.SLACK_SIGNING_SECRET ext
           then [Outbound.CallSendSlackMessage] else []).
Proof.
  intros Hres Hq Hyes Hmail Hseq Hslack.
  unfold Outbound.workflowOutbound, Outbound.stepResearchProspect,
    Outbound.stepQualifyProspect, Outbound.stepGenerateOutboundEmail,
    Outbound.stepGenerateMultiTouchSequence, Outbound.stepReviewOutbound, bind.
  rewrite Hres, awaitCall_resolves, Hq, awaitCall_resolves, Hyes.
  rewrite Hmail, awaitCall_resolves, Hseq, awaitCall_resolves.
  unfold Outbound.note, modify.
  destruct (Outbound.SLACK_BOT_TOKEN ext), (Outbound.SLACK_SIGNING_SECRET ext);
    cbn [negb orb andb] in *; unfold ret;
    try (rewrite <- !app_assoc; reflexivity).
  destruct (Outbound.sendSlackMessageWithButtons ext prospect research q sequence)
    as [handle|]; [|now destruct Hslack].
  rewrite awaitCall_resolves. rewrite <- !app_assoc. reflexivity.
Qed.

Lemma outbound_qualified_prospect_witness :
  Outbound.workflowOutbound (outboundAnswering (highScore true)) prospectKay []
  = (Returned (Outbound.Qualified "Kay Osei" "Acme" 95 3 (Some "$50K-100K")),
     [Outbound.CallResearchProspect; Outbound.CallQualifyProspect;
      Outbound.CallGenerateOutboundEmail;
      Outbound.CallGenerateMultiTouchSequence;
      Outbound.CallReviewOutbound; Outbound.CallSendSlackMessage]).
Proof.
  refine (outbound_qualified_prospect (outboundAnswering (highScore true))
            prospectKay [] "prospect research" (highScore true) "Subject: hi"
            threeTouches _ _ _ _ _ _); try reflexivity.
  discriminate.
Defined.

(** * Properties of the outbound endpoint *)

(** X20. The POST handler never throws and answers 200, 400 or 500. It
    answers 200, echoing the prospect's name and company, exactly when the
    body was read, passed validation and the workflow was started on the
    parsed prospect; it answers 400 with the validation message when the
    body does not pass validation, and 500 when reading the body or
    starting the workflow fails, and in these two cases no workflow is
    started. *)
Theorem POST_outcomes
  (Body : Type) (platform : Api.Platform Body) (requestJson : option Body)
  (started : list Outbound.OutboundProspect) :
  exists response started',
    Api.POST platform requestJson started = (Returned response, started')
    /\ ((Api.status response = 200
         /\ exists b data,
              requestJson = Some b
              /\ Api.safeParse platform b = inr data
              /\ Api.start platform data = true
              /\ started' = started ++ [data]
              /\ Api.body response
                 = Api.StartedBody "Outbound workflow started successfully"
                     (Outbound.name data) (Outbound.company data))
        \/ (Api.status response = 400
            /\ started' = started
            /\ exists b details,
                 requestJson = Some b
                 /\ Api.safeParse platform b = inl details
                 /\ Api.body response
                    = Api.InvalidBody "Invalid request body" details)
        \/ (Api.status response = 500
            /\ started' = started
            /\ Api.body response
               = Api.FailedBody "Failed to start outbound workflow"
            /\ (requestJson = None
                \/ exists b data,
                     requestJson = Some b
                     /\ Api.safeParse platform b = inr data
                     /\ Api.start platform data = false))).
Proof.
  unfold Api.POST, tryCatch, bind.
  destruct requestJson as [b|]; cbn.
  - destruct (Api.safeParse platform b) as [details | data] eqn:P; cbn.
    + do 2 eexists. split; [reflexivity|]. right. left.
      repeat split. now exists b, details.
    + destruct (Api.start platform data) eqn:S; cbn.
      * do 2 eexists. split; [reflexivity|]. left.
        split; [reflexivity|]. now exists b, data.
      * do 2 eexists. split; [reflexivity|]. right. right.
        repeat split. right. now exists b, data.
  - do 2 eexists. split; [reflexivity|]. right. right.
    repeat split. now left.
Qed.

(** * Further runs that fail or stop early *)

Lemma slack_message_only_for_reviewed_leads_witness :
  SLACK_BOT_TOKEN (answering hotMidMarket) = true
  /\ SLACK_SIGNING_SECRET (answering hotMidMarket) = true
  /\ exists research enrichment object emailText,
       researchAgentGenerate (answering hotMidMarket) inquiry = Some research
       /\ generateEnrichment (answering hotMidMarket) inquiry research
          = Some enrichment
       /\ generateQualification (answering hotMidMarket) inquiry research
            enrichment = Some object
       /\ category object <> COLD_LEAD
       /\ category object <> UNQUALIFIED
       /\ generateEmailText (answering hotMidMarket) inquiry research
            (routedQualification object (router startOfRun)) enrichment
            (getEmailTemplateType object) = Some emailText.
Proof.
  apply (slack_message_only_for_reviewed_leads (answering hotMidMarket) inquiry
           startOfRun
           [CallResearchAgent; CallEnrichLead; CallGenerateQualification;
            CallGetRoutingRecommendation hotMidMarket;
            CallWriteEmail HOT_LEAD_RESPONSE;
            CallGenerateFollowUpSequence; CallStepHumanFeedback;
            CallSendSlackMessage]).
  - reflexivity.
  - cbn. tauto.
Defined.

Lemma stepHumanFeedback_rejects ext data research emailText q enrichment w :
  slackConfigured ext = true ->
  sendSlackMessageWithButtons ext data research emailText q enrichment = None ->
  stepHumanFeedback ext data research emailText q enrichment w
  = (Threw "rejected", logged w [CallStepHumanFeedback; CallSendSlackMessage]).
Proof.
  unfold stepHumanFeedback, slackConfigured, humanFeedback, bind.
  rewrite record_run. intros Hcfg Hslack.
  apply andb_true_iff in Hcfg. destruct Hcfg as [-> ->]. cbn [negb orb].
  now rewrite Hslack, await_rejects, logged_logged.
Qed.

(** X21. When Slack is configured and the Slack call rejects, the run of a
    lead whose category is neither COLD_LEAD nor UNQUALIFIED fails at the
    approval step, after the email (and, except for SUPPORT, the follow-up
    sequence) was generated: no summary is returned. *)
Theorem slack_rejection_fails_the_run
  (ext : Collaborators) (data : FormSchema) (w : World)
  (research : string) (enrichment : LeadEnrichmentSchema)
  (object : QualificationSchema) (emailText : string) :
  researchAgentGenerate ext data = Some research ->
  generateEnrichment ext data research = Some enrichment ->
  generateQualification ext data research enrichment = Some object ->
  category object <> COLD_LEAD ->
  category object <> UNQUALIFIED ->
  generateEmailText ext data research (routedQualification object (router w))
    enrichment (getEmailTemplateType object) = Some emailText ->
  (category object <> SUPPORT ->
   generateFollowUpEmails ext data (routedQualification object (router w))
     enrichment [emailText] <> None) ->
  slackConfigured ext = true ->
  sendSlackMessageWithButtons ext data research emailText
    (routedQualification object (router w)) enrichment = None ->
  workflowInbound ext data w
  = (Threw "rejected",
     logged w ([CallResearchAgent; CallEnrichLead; CallGenerateQualification;
                CallGetRoutingRecommendation object;
                CallWriteEmail (getEmailTemplateType object)]
               ++ (if QualificationCategory_beq (category object) SUPPORT
                   then [] else [CallGenerateFollowUpSequence])
               ++ [CallStepHumanFeedback; CallSendSlackMessage])).
Proof.
  intros Hres Henr Hq Hcold Hunq Hmail Hfollow Hcfg Hslack.
  enter_branch Hres Henr Hq.
  unfold stepGenerateFollowUpSequence, generateFollowUpSequence.
  destruct (category object) eqn:Hc; try congruence;
    rewrite Hmail, await_resolves;
    try (destruct (generateFollowUpEmails ext data
                     (routedQualification object (router w)) enrichment
                     [emailText]) as [followUps|];
         [rewrite await_resolves | exfalso; apply Hfollow; congruence]);
    rewrite ?logged_logged;
    rewrite (stepHumanFeedback_rejects _ _ _ _ _ _ _ Hcfg Hslack);
    rewrite ?logged_logged; reflexivity.
Qed.

Lemma slack_rejection_fails_the_run_witness :
  workflowInbound (slackDown supportRequest) inquiry startOfRun
  = (Threw "rejected",
     logged startOfRun
       [CallResearchAgent; CallEnrichLead; CallGenerateQualification;
        CallGetRoutingRecommendation supportRequest;
        CallWriteEmail SUPPORT_REDIRECT;
        CallStepHumanFeedback; CallSendSlackMessage]).
Proof.
  refine (slack_rejection_fails_the_run (slackDown supportRequest) inquiry
            startOfRun _ _ supportRequest "Subject: hello"
            _ _ _ _ _ _ _ _ _); try reflexivity; try discriminate.
Defined.

(** ** Outbound outreach only on the qualifier's word *)

(** X22. A run of the outbound workflow generates an email only if research
    and qualification answered and the qualifier said that the prospect
    should be reached out to, whatever the services answer otherwise. *)
Theorem outbound_email_only_when_qualified
  (ext : Outbound.Services) (prospect : Outbound.OutboundProspect)
  (cs new : list Outbound.Call) :
  snd (Outbound.workflowOutbound ext prospect cs) = cs ++ new ->
  In Outbound.CallGenerateOutboundEmail new ->
  exists research q,
    Outbound.researchAgentGenerate ext prospect = Some research
    /\ Outbound.generateProspectQualification ext prospect research = Some q
    /\ Outbound.shouldReachOut q = true.
Proof.
  intros Hrun Hin.
  unfold Outbound.workflowOutbound, Outbound.stepResearchProspect,
    Outbound.stepQualifyProspect, bind in Hrun.
  destruct (Outbound.researchAgentGenerate ext prospect) as [research|] eqn:Hres.
  2:{ rewrite awaitCall_rejects in Hrun. cbn [snd] in Hrun.
      apply app_inv_head in Hrun. subst new.
      destruct Hin as [H | []]. discriminate H. }
  rewrite awaitCall_resolves in Hrun.
  destruct (Outbound.generateProspectQualification ext prospect research)
    as [q|] eqn:Hq.
  2:{ rewrite awaitCall_rejects in Hrun. cbn [snd] in Hrun.
      rewrite <- app_assoc in Hrun.
      apply app_inv_head in Hrun. subst new.
      destruct Hin as [H | [H | []]]; discriminate H. }
  rewrite awaitCall_resolves in Hrun.
  destruct (Outbound.shouldReachOut q) eqn:Hyes.
  - now exists research, q.
  - cbn [snd ret] in Hrun. unfold ret in Hrun. cbn [snd] in Hrun.
    rewrite <- app_assoc in Hrun.
    apply app_inv_head in Hrun. subst new.
    destruct Hin as [H | [H | []]]; discriminate H.
Qed.

Lemma outbound_email_only_when_qualified_witness :
  exists research q,
    Outbound.researchAgentGenerate (outboundAnswering (highScore true))
      prospectKay = Some research
    /\ Outbound.generateProspectQualification
         (outboundAnswering (highScore true)) prospectKay research = Some q
    /\ Outbound.shouldReachOut q = true.
Proof.
  apply (outbound_email_only_when_qualified (outboundAnswering (highScore true))
           prospectKay []
           [Outbound.CallResearchProspect; Outbound.CallQualifyProspect;
            Outbound.CallGenerateOutboundEmail;
            Outbound.CallGenerateMultiTouchSequence;
            Outbound.CallReviewOutbound; Outbound.CallSendSlackMessage]).
  - reflexivity.
  - cbn. tauto.
Defined.
